(** * studdy-buddy backend: ingestion, vector index adapter and RAG orchestration

    A shallow embedding of the Python backend
    ([text_chunker.py], [pdf_parser.py], [vector_store.py],
    [pdf_processor.py], [rag_service.py]) and the properties proved about it.

    Conventions.
    - A Python [str] is the [string] of its UTF-8 bytes; [len] counts code
      points ([Str.len]), and [str.strip] removes the characters
      [str.isspace] accepts ([Str.strip]).
    - A flat [dict] with string keys is a [gmap string pyval]; a dict literal
      with a fixed set of keys whose values are themselves containers is a
      record, with an [option] field where the code reads the key with [.get]
      or where a [KeyError] is possible.
    - Code that may raise returns a [result]; code that also reads or writes the
      file system, the index or standard output runs in the monad [Py], in
      which the state reached before an exception is kept.
    - The third-party capabilities (text splitter, PDF reader, index operations
      on a collection, language model, float formatting) are Section variables. *)

From Stdlib Require Import ZArith String Ascii List PrimFloat SpecFloat FloatOps.
From stdpp Require Import base option list strings gmap fin_maps pretty.
From Equations Require Import Equations.

Local Set Warnings "-inexact-float".
Local Open Scope string_scope.
Local Open Scope list_scope.
Local Open Scope Z_scope.

(** ** Python values, truthiness, equality *)

Inductive pyval : Type :=
  | VNone
  | VBool (b : bool)
  | VInt (n : Z)
  | VFloat (f : float)
  | VStr (s : string).

(** [bool(v)] *)
Definition truthy (v : pyval) : bool :=
  match v with
  | VNone => false
  | VBool b => b
  | VInt n => negb (n =? 0)
  | VFloat f => negb (PrimFloat.eqb f 0%float)
  | VStr s => negb (String.eqb s "")
  end.

(** The integer a float is exactly equal to, if any. *)
Definition float_exact (f : float) : option Z :=
  match Prim2SF f with
  | S754_zero _ => Some 0
  | S754_finite s m e =>
      let mag :=
        if 0 <=? e then Some (Z.pos m * 2 ^ e)
        else if Z.pos m mod 2 ^ (- e) =? 0 then Some (Z.pos m / 2 ^ (- e))
        else None in
      (if s then Z.opp else id) <$> mag
  | _ => None
  end.

Definition as_int (v : pyval) : option Z :=
  match v with
  | VBool b => Some (Z.b2z b)
  | VInt n => Some n
  | _ => None
  end.

Definition int_eq_float (n : Z) (f : float) : bool :=
  match float_exact f with
  | Some k => n =? k
  | None => false
  end.

(** [a == b]: [None] only equals [None], strings compare by content, and
    [bool], [int] and [float] compare by numeric value. *)
Definition py_eqb (a b : pyval) : bool :=
  match a, b with
  | VNone, VNone => true
  | VStr s, VStr t => String.eqb s t
  | VFloat f, VFloat g => PrimFloat.eqb f g
  | VFloat f, _ => match as_int b with Some n => int_eq_float n f | None => false end
  | _, VFloat g => match as_int a with Some n => int_eq_float n g | None => false end
  | _, _ =>
      match as_int a, as_int b with
      | Some m, Some n => m =? n
      | _, _ => false
      end
  end.

(** [d.get(k)] and [d.get(k, dflt)] on a flat dict. *)
Definition dict_get (d : gmap string pyval) (k : string) : pyval :=
  default VNone (d !! k).

Definition dict_get_or (d : gmap string pyval) (k : string) (dflt : pyval) : pyval :=
  default dflt (d !! k).

(** ** Exceptions and results *)

Inductive exn : Type :=
  | KeyError (key : string)
  | TypeError (msg : string)
  | FileNotFoundError (msg : string)
  | SameFileError (msg : string)
  | NotFoundError (msg : string)
  | ExternalError (msg : string).

Inductive result (A : Type) : Type :=
  | Ok (a : A)
  | Raise (e : exn).
Arguments Ok {A} a.
Arguments Raise {A} e.

Global Instance result_ret : MRet result := fun A a => Ok a.
Global Instance result_bind : MBind result := fun A B f m =>
  match m with
  | Ok a => f a
  | Raise e => Raise e
  end.
Global Instance result_fmap : FMap result := fun A B f m =>
  match m with
  | Ok a => Ok (f a)
  | Raise e => Raise e
  end.

(** [d[k]] *)
Definition subscript (d : gmap string pyval) (k : string) : result pyval :=
  match d !! k with
  | Some v => Ok v
  | None => Raise (KeyError k)
  end.

(** ** text_chunker.py *)

Module TextChunker.

(** One element of the list [chunk_pages] returns and [add_documents]
    receives: the dict [{"text": ..., "metadata": {...}}]. A field is [None]
    when the key is absent. *)
Record chunk : Type := Chunk {
  chunk_text : option pyval;
  chunk_metadata : option (gmap string pyval)
}.

Section Chunker.
(** [self.text_splitter.split_text], the splitter built in [__init__]. *)
Variable split_text : string -> list string.

(** The splitter is handed [page["text"]] and works on strings only. *)
Definition split_page_text (page_text : pyval) : result (list string) :=
  match page_text with
  | VStr s => Ok (split_text s)
  | _ => Raise (TypeError "expected string or bytes-like object")
  end.

(** The inner loop [for chunk in chunks]: appends one dict per piece and
    advances the counter. *)
Fixpoint emit_chunks (chunks : list string) (page_number : pyval)
    (doc_metadata : option (gmap string pyval))
    (all_chunks : list chunk) (chunk_id : Z) : list chunk * Z :=
  match chunks with
  | [] => (all_chunks, chunk_id)
  | piece :: rest =>
      let chunk_metadata : gmap string pyval :=
        default ∅ doc_metadata
          ∪ <["chunk_id" := VInt chunk_id]> {["page_number" := page_number]} in
      emit_chunks rest page_number doc_metadata
        (all_chunks ++ [Chunk (Some (VStr piece)) (Some chunk_metadata)])
        (chunk_id + 1)
  end.

(** The outer loop [for page in pages]. *)
Fixpoint chunk_pages_from (pages : list (gmap string pyval))
    (doc_metadata : option (gmap string pyval))
    (all_chunks : list chunk) (chunk_id : Z) : result (list chunk) :=
  match pages with
  | [] => Ok all_chunks
  | page :: rest =>
      page_text ← subscript page "text";
      page_number ← subscript page "page_number";
      chunks ← split_page_text page_text;
      let '(all_chunks', chunk_id') :=
        emit_chunks chunks page_number doc_metadata all_chunks chunk_id in
      chunk_pages_from rest doc_metadata all_chunks' chunk_id'
  end.

Definition chunk_pages (pages : list (gmap string pyval))
    (doc_metadata : option (gmap string pyval)) : result (list chunk) :=
  chunk_pages_from pages doc_metadata [] 0.

End Chunker.

(** The [chunk_id] stored in a chunk's metadata. *)
Definition chunk_id_of (c : chunk) : option pyval :=
  chunk_metadata c ≫= (fun md => md !! "chunk_id").

(** A page as the parser builds it: both keys present, the text a string. *)
Definition well_formed_page (page : gmap string pyval) : bool :=
  match page !! "text", page !! "page_number" with
  | Some (VStr _), Some _ => true
  | _, _ => false
  end.

(** [0, 1, ..., n-1] as stored metadata values. *)
Definition counter_values (n : nat) : list (option pyval) :=
  (fun i : nat => Some (VInt (Z.of_nat i))) <$> seq 0 n.

End TextChunker.

(** ** Python strings *)

Module Str.

(** A byte that continues a multi-byte character: [10xxxxxx]. *)
Definition continuation (a : ascii) : bool :=
  ((128 <=? nat_of_ascii a) && (nat_of_ascii a <? 192))%nat.

(** [len(s)]: the number of code points, one per byte that starts a
    character. *)
Fixpoint len (s : string) : nat :=
  match s with
  | EmptyString => 0%nat
  | String a rest => if continuation a then len rest else S (len rest)
  end.

Definition of_bytes (codes : list nat) : list ascii := ascii_of_nat <$> codes.

(** The characters [str.isspace] accepts, each as its UTF-8 bytes: U+0009 to
    U+000D, U+001C to U+001F, U+0020, U+0085, U+00A0, U+1680, U+2000 to
    U+200A, U+2028, U+2029, U+202F, U+205F and U+3000. *)
Definition whitespace : list (list ascii) :=
  of_bytes <$>
    [ [9]; [10]; [11]; [12]; [13]; [28]; [29]; [30]; [31]; [32];
      [194; 133]; [194; 160]; [225; 154; 128];
      [226; 128; 128]; [226; 128; 129]; [226; 128; 130]; [226; 128; 131];
      [226; 128; 132]; [226; 128; 133]; [226; 128; 134]; [226; 128; 135];
      [226; 128; 136]; [226; 128; 137]; [226; 128; 138];
      [226; 128; 168]; [226; 128; 169]; [226; 128; 175];
      [226; 129; 159]; [227; 128; 128] ]%nat.

(** [bytes] without the leading [pattern], when it starts with it. *)
Fixpoint drop_prefix (pattern bytes : list ascii) : option (list ascii) :=
  match pattern, bytes with
  | [], _ => Some bytes
  | a :: pattern', b :: bytes' =>
      if Ascii.eqb a b then drop_prefix pattern' bytes' else None
  | _ :: _, [] => None
  end.

(** [bytes] without the first of [patterns] it starts with. *)
Fixpoint drop_first (patterns : list (list ascii)) (bytes : list ascii)
    : option (list ascii) :=
  match patterns with
  | [] => None
  | pattern :: rest =>
      match drop_prefix pattern bytes with
      | Some bytes' => Some bytes'
      | None => drop_first rest bytes
      end
  end.

(** Characters among [patterns] are removed from the front for as long as
    there is one. *)
Fixpoint drop_while (fuel : nat) (patterns : list (list ascii))
    (bytes : list ascii) : list ascii :=
  match fuel with
  | O => bytes
  | S fuel' =>
      match drop_first patterns bytes with
      | Some bytes' => drop_while fuel' patterns bytes'
      | None => bytes
      end
  end.

Definition lstrip_bytes (bytes : list ascii) : list ascii :=
  drop_while (length bytes) whitespace bytes.

(** From the end, the same on the reversed bytes with the reversed
    characters. *)
Definition rstrip_bytes (bytes : list ascii) : list ascii :=
  rev (drop_while (length bytes) (rev (A:=ascii) <$> whitespace) (rev bytes)).

(** [s.strip()] *)
Definition strip (s : string) : string :=
  string_of_list_ascii (rstrip_bytes (lstrip_bytes (list_ascii_of_string s))).

(** The text starts, or ends, with a character [str.isspace] accepts. *)
Definition starts_with_space (s : string) : bool :=
  match drop_first whitespace (list_ascii_of_string s) with
  | Some _ => true
  | None => false
  end.

Definition ends_with_space (s : string) : bool :=
  match drop_first (rev (A:=ascii) <$> whitespace)
          (rev (list_ascii_of_string s)) with
  | Some _ => true
  | None => false
  end.

End Str.

(** ** The text splitter *)

Module Splitter.

(** [Config.CHUNK_SIZE] and [Config.CHUNK_OVERLAP] (config.py). *)
Definition CHUNK_SIZE : nat := 1000.
Definition CHUNK_OVERLAP : nat := 200.

Section Recursive.
Variable chunk_size : nat.
(** How the splitter cuts a text in every other case: a text longer than
    [chunk_size] (paragraph breaks, then line breaks, then spaces, then any
    position, with overlap). *)
Variable split_oversize : string -> list string.

(** [RecursiveCharacterTextSplitter.split_text] of langchain_text_splitters,
    which [TextChunker.__init__] configures with [chunk_size],
    [chunk_overlap], [length_function=len] and the separators paragraph
    break, line break, space, empty, and with [strip_whitespace] left at its
    default, on; its code is not part of the repository. An empty text has
    no piece. For a chunk size of 2 or more, the pieces of a text of at
    most [chunk_size] characters are all shorter than the chunk size and
    are merged back into one chunk, the text itself; a chunk is stripped of
    surrounding whitespace, and dropped when nothing is left of it. *)
Definition split_text (text : string) : list string :=
  if String.eqb text "" then []
  else if ((2 <=? chunk_size) && (Str.len text <=? chunk_size))%nat then
    let chunk := Str.strip text in
    if String.eqb chunk "" then [] else [chunk]
  else split_oversize text.
End Recursive.

(** Cutting at arbitrary character positions, the splitter's last resort:
    windows of [width] characters. *)
Fixpoint windows (fuel width : nat) (text : string) : list string :=
  match fuel with
  | O => []
  | S fuel' =>
      if String.eqb text "" then []
      else String.substring 0 width text
             :: windows fuel' width
                  (String.substring width (String.length text - width) text)
  end.

Definition fixed_width (width : nat) (text : string) : list string :=
  windows (String.length text) width text.

End Splitter.

(** ** pathlib *)

Module Pathlib.

(** Position of the last occurrence of [c] in [s], scanning from index [i]. *)
Fixpoint rfind_from (c : ascii) (s : string) (i : nat) (last : option nat)
    : option nat :=
  match s with
  | EmptyString => last
  | String a rest =>
      rfind_from c rest (S i) (if Ascii.eqb a c then Some i else last)
  end.

Definition rfind (c : ascii) (s : string) : option nat := rfind_from c s 0%nat None.

(** [p.name]: the final component. *)
Definition name (p : string) : string :=
  match rfind "/" p with
  | Some i => String.substring (S i) (String.length p - S i) p
  | None => p
  end.

(** [p.stem]: the final component without its last suffix. *)
Definition stem (p : string) : string :=
  let n := name p in
  match rfind "." n with
  | Some i =>
      if ((0 <? i) && (i <? String.length n - 1))%nat
      then String.substring 0 i n
      else n
  | None => n
  end.

(** [dir / rel] for a relative [rel]. *)
Definition join (dir rel : string) : string := dir +:+ "/" +:+ rel.

End Pathlib.

(** ** The world the backend runs in *)

Module Runtime.

(** One stored passage of the index. *)
Record entry : Type := Entry {
  entry_id : string;
  entry_document : pyval;
  entry_metadata : gmap string pyval
}.

(** A named collection: its configuration and its passages. *)
Record collection : Type := Collection {
  coll_metadata : gmap string pyval;
  coll_entries : list entry
}.

Record world : Type := World {
  files : gmap string string;        (** path -> file content *)
  chroma : gmap string collection;   (** the persistent client's collections *)
  stdout : list string;              (** lines printed so far *)
  clock : string                     (** [datetime.now().isoformat()] *)
}.

(** A computation that may read and write the world and may raise; the world
    reached when an exception is raised is kept. *)
Record Py (A : Type) : Type := MkPy { run : world -> world * result A }.
Arguments MkPy {A} run.
Arguments run {A} p w.

Global Instance Py_ret : MRet Py := fun A a => MkPy (fun w => (w, Ok a)).
Global Instance Py_bind : MBind Py := fun A B f m =>
  MkPy (fun w =>
    match run m w with
    | (w', Ok a) => run (f a) w'
    | (w', Raise e) => (w', Raise e)
    end).

Definition raise {A : Type} (e : exn) : Py A := MkPy (fun w => (w, Raise e)).

Definition lift {A : Type} (r : result A) : Py A := MkPy (fun w => (w, r)).

(** [try: m] with the outcome handed to the continuation. *)
Definition attempt {A : Type} (m : Py A) : Py (result A) :=
  MkPy (fun w => let '(w', r) := run m w in (w', Ok r)).

Definition get_world : Py world := MkPy (fun w => (w, Ok w)).

Definition print (line : string) : Py unit :=
  MkPy (fun w =>
    (World (files w) (chroma w) (stdout w ++ [line]) (clock w), Ok tt)).

Definition set_collection (name : string) (c : collection) : Py unit :=
  MkPy (fun w =>
    (World (files w) (<[name := c]> (chroma w)) (stdout w) (clock w), Ok tt)).

Definition drop_collection (name : string) : Py unit :=
  MkPy (fun w =>
    (World (files w) (delete name (chroma w)) (stdout w) (clock w), Ok tt)).

Definition write_file (path content : string) : Py unit :=
  MkPy (fun w =>
    (World (<[path := content]> (files w)) (chroma w) (stdout w) (clock w), Ok tt)).

(** [str(e)] *)
Definition exn_str (e : exn) : string :=
  match e with
  | KeyError k => "'" +:+ k +:+ "'"
  | TypeError m => m
  | FileNotFoundError m => m
  | SameFileError m => m
  | NotFoundError m => m
  | ExternalError m => m
  end.

End Runtime.

(** ** vector_store.py *)

Module VectorStore.
Import Runtime TextChunker.

(** What [collection.query] answers: one list per query text, or [None]. *)
Record query_response : Type := QueryResponse {
  resp_documents : option (list (list pyval));
  resp_metadatas : option (list (list (gmap string pyval)));
  resp_distances : option (list (list float));
  resp_ids : option (list (list string))
}.

(** The dict [query] returns. *)
Record query_result : Type := QueryResult {
  documents : list pyval;
  metadatas : list (gmap string pyval);
  distances : list float;
  ids : list string
}.

(** [xs[0] if xs else []] *)
Definition first_or_empty {A : Type} (xs : option (list (list A))) : list A :=
  match xs with
  | Some (x :: _) => x
  | _ => []
  end.

(** A [where] filter of metadata equalities holds of a metadata dict when
    every key of the filter is present with an equal value. *)
Definition matches_where (where_ md : gmap string pyval) : bool :=
  forallb
    (fun kv : string * pyval =>
       match md !! kv.1 with
       | Some v => py_eqb v kv.2
       | None => false
       end)
    (map_to_list where_).

(** The batch [add_documents] prepares: the loop over [enumerate(chunks)]. *)
Fixpoint prepare_from (chunks : list chunk) (document_id : string) (i : nat)
    (ids : list string) (documents : list pyval)
    (metadatas : list (gmap string pyval))
    : result (list string * list pyval * list (gmap string pyval)) :=
  match chunks with
  | [] => Ok (ids, documents, metadatas)
  | chunk :: rest =>
      let chunk_id := document_id +:+ "_chunk_" +:+ pretty i in
      match chunk_text chunk with
      | None => Raise (KeyError "text")
      | Some text =>
          let metadata := default ∅ (chunk_metadata chunk) in
          let metadata := <["document_id" := VStr document_id]> metadata in
          let metadata := <["chunk_index" := VInt (Z.of_nat i)]> metadata in
          prepare_from rest document_id (S i)
            (ids ++ [chunk_id]) (documents ++ [text]) (metadatas ++ [metadata])
      end
  end.

Definition prepare_batch (chunks : list chunk) (document_id : string)
    : result (list string * list pyval * list (gmap string pyval)) :=
  prepare_from chunks document_id 0%nat [] [] [].

Definition empty_result : query_result := QueryResult [] [] [] [].

(** [self.client.get_collection(name)]: raises when there is no such
    collection. *)
Definition get_collection (name : string) : Py collection :=
  w ← get_world;
  match chroma w !! name with
  | Some c => mret c
  | None => raise (NotFoundError ("Collection " +:+ name +:+ " does not exist."))
  end.

(** [self.client.delete_collection(name)] *)
Definition delete_collection (name : string) : Py unit :=
  _ ← get_collection name;
  drop_collection name.

(** [self.client.get_or_create_collection(name, metadata)]: the index first
    checks the name, and raises for a name it refuses. *)
Definition get_or_create_collection (name_check : string -> result unit)
    (name : string) (metadata : gmap string pyval) : Py collection :=
  lift (name_check name);;
  w ← get_world;
  match chroma w !! name with
  | Some c => mret c
  | None =>
      let c := Collection metadata [] in
      set_collection name c;; mret c
  end.

Section Adapter.
(** The index's check of a collection name. *)
Variable name_check : string -> result unit.
(** The index operations on a collection handle. Each answers the updated
    collection, or raises. *)
Variable collection_add :
  collection -> list string -> list pyval -> list (gmap string pyval) ->
  result collection.
Variable collection_query :
  collection -> string -> Z -> option (gmap string pyval) ->
  result query_response.
Variable collection_delete :
  collection -> gmap string pyval -> result collection.

(** A mutating call on the handle of collection [name]: the store holds
    the updated collection afterwards. *)
Definition on_collection (name : string) (r : result collection) : Py unit :=
  c' ← lift r;
  set_collection name c'.

Definition create_collection (collection_name : string) (replace : bool)
    : Py collection :=
  (if replace
   then _ ← attempt (delete_collection collection_name); mret tt
   else mret tt);;
  get_or_create_collection name_check collection_name
    {["hnsw:space" := VStr "cosine"]}.

Definition add_documents (collection_name : string) (chunks : list chunk)
    (document_id : string) : Py unit :=
  collection ← create_collection collection_name false;
  batch ← lift (prepare_batch chunks document_id);
  let '(ids, documents, metadatas) := batch in
  on_collection collection_name
    (collection_add collection ids documents metadatas).

Definition query (collection_name query_text : string) (n_results : Z)
    (filter_dict : option (gmap string pyval)) : Py query_result :=
  got ← attempt (get_collection collection_name);
  match got with
  | Raise _ => mret empty_result
  | Ok collection =>
      results ← lift (collection_query collection query_text n_results filter_dict);
      mret (QueryResult
              (first_or_empty (resp_documents results))
              (first_or_empty (resp_metadatas results))
              (first_or_empty (resp_distances results))
              (first_or_empty (resp_ids results)))
  end.

Definition delete_document (collection_name document_id : string) : Py unit :=
  outcome ← attempt (
    collection ← get_collection collection_name;
    on_collection collection_name
      (collection_delete collection {["document_id" := VStr document_id]}));
  match outcome with
  | Ok _ => mret tt
  | Raise e =>
      print ("Error deleting document " +:+ document_id +:+ ": " +:+ exn_str e)
  end.

End Adapter.

(** A reference index held in memory. [delete] with a [where] filter removes
    exactly the passages whose metadata match; [add] appends the batch. *)
Definition without_matching (c : collection) (where_ : gmap string pyval)
    : collection :=
  Collection (coll_metadata c)
    (List.filter (fun e => negb (matches_where where_ (entry_metadata e)))
       (coll_entries c)).

Definition mem_delete (c : collection) (where_ : gmap string pyval)
    : result collection :=
  Ok (without_matching c where_).

(** The passage belongs to document [document_id]: its metadata has that
    string under [document_id]. *)
Definition of_document (document_id : string) (e : entry) : bool :=
  match entry_metadata e !! "document_id" with
  | Some (VStr s) => String.eqb s document_id
  | _ => false
  end.

Fixpoint zip_entries (ids : list string) (documents : list pyval)
    (metadatas : list (gmap string pyval)) : list entry :=
  match ids, documents, metadatas with
  | i :: ids', d :: documents', m :: metadatas' =>
      Entry i d m :: zip_entries ids' documents' metadatas'
  | _, _, _ => []
  end.

Definition mem_add (c : collection) (ids : list string) (documents : list pyval)
    (metadatas : list (gmap string pyval)) : result collection :=
  Ok (Collection (coll_metadata c)
        (coll_entries c ++ zip_entries ids documents metadatas)).

(** An index that accepts every collection name. *)
Definition any_name (name : string) : result unit := Ok tt.

(** An index that refuses a collection name of fewer than 3 or more than 63
    bytes. *)
Definition sized_name (name : string) : result unit :=
  if ((3 <=? String.length name) && (String.length name <=? 63))%nat
  then Ok tt
  else Raise (ExternalError
                ("Expected collection name that contains 3-63 characters, got "
                 +:+ name)).

(** An index that rejects every write. *)
Definition failing_add (c : collection) (ids : list string)
    (documents : list pyval) (metadatas : list (gmap string pyval))
    : result collection :=
  Raise (ExternalError "index unavailable").

Definition failing_delete (c : collection) (where_ : gmap string pyval)
    : result collection :=
  Raise (ExternalError "index unavailable").

Definition failing_query (c : collection) (query_text : string) (n_results : Z)
    (filter_dict : option (gmap string pyval)) : result query_response :=
  Raise (ExternalError "index unavailable").

End VectorStore.

(** ** pdf_parser.py *)

Module PDFParser.
Import Runtime.

(** An opened PDF: the text of each page ([page.get_text()]) and
    [doc.metadata], which may be [None]. *)
Record fitz_document : Type := FitzDocument {
  fitz_pages : list string;
  fitz_metadata : option (gmap string pyval)
}.

(** The dict [extract_text] returns. *)
Record pdf_data : Type := PdfData {
  pdf_text : string;
  pdf_pages : list (gmap string pyval);
  pdf_metadata : gmap string pyval;
  pdf_num_pages : Z
}.

Definition nl : string := String (ascii_of_nat 10) EmptyString.

(** The loop [for page_num in range(len(doc))]. *)
Fixpoint read_pages (texts : list string) (page_num : Z)
    (pages : list (gmap string pyval)) : list (gmap string pyval) :=
  match texts with
  | [] => pages
  | text :: rest =>
      read_pages rest (page_num + 1)
        (pages ++ [<["text" := VStr text]> {["page_number" := VInt (page_num + 1)]}])
  end.

Section Parser.
(** [fitz.open] on the content of a file. *)
Variable fitz_open : string -> result fitz_document.

Definition extract_text (pdf_path : string) : Py pdf_data :=
  w ← get_world;
  match files w !! pdf_path with
  | None => raise (FileNotFoundError ("PDF file not found: " +:+ pdf_path))
  | Some content =>
      doc ← lift (fitz_open content);
      let pages := read_pages (fitz_pages doc) 0 [] in
      let full_text := fitz_pages doc in
      let metadata := default ∅ (fitz_metadata doc) in
      mret (PdfData
              (String.concat (nl +:+ nl) full_text)
              pages
              (<["creator" := dict_get_or metadata "creator" (VStr "")]>
               (<["subject" := dict_get_or metadata "subject" (VStr "")]>
                (<["author" := dict_get_or metadata "author" (VStr "")]>
                 {["title" := dict_get_or metadata "title" (VStr "")]})))
              (Z.of_nat (length pages)))
  end.
End Parser.

End PDFParser.

(** ** pdf_processor.py *)

Module PDFProcessor.
Import Runtime TextChunker PDFParser.

(** The dict [process_pdf] returns. *)
Record processing_result : Type := ProcessingResult {
  res_document_id : string;
  res_filename : string;
  res_num_pages : Z;
  res_num_chunks : Z;
  res_metadata : gmap string pyval;
  res_collection : string;
  res_status : string
}.

(** [shutil.copy2(src, dst)]: a missing source raises; so does a
    destination that is the source file itself, under the same path or, as
    [same_file] says, under another one. *)
Definition copy2 (same_file : string -> string -> bool) (src dst : string)
    : Py unit :=
  w ← get_world;
  match files w !! src with
  | Some content =>
      if bool_decide (src = dst) || same_file src dst
      then raise (SameFileError (src +:+ " and " +:+ dst +:+ " are the same file"))
      else write_file dst content
  | None => raise (FileNotFoundError src)
  end.

Definition datetime_now_isoformat : Py string :=
  w ← get_world; mret (clock w).

Section Processor.
Variable split_text : string -> list string.
Variable fitz_open : string -> result fitz_document.
Variable name_check : string -> result unit.
Variable collection_add :
  collection -> list string -> list pyval -> list (gmap string pyval) ->
  result collection.
(** Whether two paths name one file of the file system. *)
Variable same_file : string -> string -> bool.
(** [Config.UPLOADS_PATH] *)
Variable uploads_dir : string.

(** The metadata dict built in step 2. *)
Definition doc_metadata_of (pdf_path document_id : string) (data : pdf_data)
    (now : string) : gmap string pyval :=
  <["processed_at" := VStr now]>
  (<["num_pages" := VInt (pdf_num_pages data)]>
   (<["author" := dict_get_or (pdf_metadata data) "author" (VStr "")]>
    (<["title" := dict_get_or (pdf_metadata data) "title"
                    (VStr (Pathlib.stem pdf_path))]>
     (<["filename" := VStr (Pathlib.name pdf_path)]>
      {["document_id" := VStr document_id]})))).

Definition destination_of (document_id : string) : string :=
  Pathlib.join uploads_dir (document_id +:+ ".pdf").

Definition process_pdf (pdf_path : string) (document_id : option string)
    (collection_name : string) : Py processing_result :=
  let document_id := default (Pathlib.stem pdf_path) document_id in
  print ("Processing PDF: " +:+ Pathlib.name pdf_path);;
  (* Step 1: extract text *)
  data ← extract_text fitz_open pdf_path;
  (* Step 2: chunk the text *)
  now ← datetime_now_isoformat;
  let doc_metadata := doc_metadata_of pdf_path document_id data now in
  chunks ← lift (chunk_pages split_text (pdf_pages data) (Some doc_metadata));
  (* Step 3: store in the vector database *)
  VectorStore.add_documents name_check collection_add collection_name chunks
    document_id;;
  (* Step 4: copy the PDF to the uploads directory *)
  let destination := destination_of document_id in
  (if bool_decide (pdf_path = destination) then mret tt
   else copy2 same_file pdf_path destination);;
  let result :=
    ProcessingResult document_id (Pathlib.name pdf_path) (pdf_num_pages data)
      (Z.of_nat (length chunks)) doc_metadata collection_name "success" in
  print ("✓ Successfully processed: " +:+ Pathlib.name pdf_path);;
  mret result.

End Processor.

(** A PDF reader for the examples: the file content is the text of its only
    page, and the document carries no metadata. *)
Definition plain_reader (content : string) : result fitz_document :=
  Ok (FitzDocument [content] None).

(** A file system in which no file has two paths. *)
Definition one_path (src dst : string) : bool := false.

(** A file system in which [alias] is a second path of the file at [path]. *)
Definition aliased (alias path : string) (src dst : string) : bool :=
  (String.eqb src alias && String.eqb dst path)
  || (String.eqb src path && String.eqb dst alias).

(** The same, with a title in the document metadata. *)
Definition titled_reader (title : string) (content : string)
    : result fitz_document :=
  Ok (FitzDocument [content] (Some {["title" := VStr title]})).

End PDFProcessor.

(** ** rag_service.py *)

Module RAGService.
Import PDFParser.

Inductive message : Type :=
  | SystemMessage (content : pyval)
  | HumanMessage (content : pyval)
  | AIMessage (content : pyval).

(** One entry of the [sources] list. *)
Record source : Type := Source {
  src_document_id : pyval;
  src_filename : pyval;
  src_page_number : pyval;
  src_similarity : pyval
}.

(** The dict [generate_answer] returns. *)
Record answer_record : Type := AnswerRecord {
  answer : string;
  sources : list source;
  context_used : Z
}.

(** What [generate_answer_stream] yields: [{"type": ..., "data": ...}]. *)
Inductive event_data : Type :=
  | ContentData (text : string)
  | SourcesData (cited : list source) (used : Z).

Record event : Type := Event {
  ev_type : string;
  ev_data : event_data
}.

Definition content_event (text : string) : event :=
  Event "content" (ContentData text).

Definition sources_event (cited : list source) (used : Z) : event :=
  Event "sources" (SourcesData cited used).

Definition system_prompt : string :=
  "You are a helpful AI study assistant. You answer questions based on the provided document context."
  +:+ nl +:+ nl +:+ "Guidelines:"
  +:+ nl +:+ "- Answer questions accurately based on the provided context"
  +:+ nl +:+ "- If the context doesn't contain enough information, say so"
  +:+ nl +:+ "- Cite page numbers when referencing specific information"
  +:+ nl +:+ "- Be concise but thorough"
  +:+ nl +:+ "- If asked about something not in the context, acknowledge the limitation".

(** The key [(chunk.get("document_id"), chunk.get("page_number"))]. *)
Definition source_key (chunk : gmap string pyval) : pyval * pyval :=
  (dict_get chunk "document_id", dict_get chunk "page_number").

(** Equality of two such tuples. *)
Definition key_eqb (k1 k2 : pyval * pyval) : bool :=
  py_eqb k1.1 k2.1 && py_eqb k1.2 k2.2.

(** [key in seen]; the set [seen] is kept as the list of the keys added, and
    membership is decided by [==]. *)
Definition key_in (key : pyval * pyval) (seen : list (pyval * pyval)) : bool :=
  existsb (fun k => key_eqb k key) seen.

Definition source_of (chunk : gmap string pyval) : source :=
  Source (dict_get chunk "document_id") (dict_get chunk "filename")
         (dict_get chunk "page_number") (dict_get chunk "similarity").

(** The loop [for chunk in context_chunks] that collects the sources; the
    same text stands in [generate_answer] and in [generate_answer_stream]. *)
Fixpoint extract_sources_from (context_chunks : list (gmap string pyval))
    (sources : list source) (seen : list (pyval * pyval)) : list source :=
  match context_chunks with
  | [] => sources
  | chunk :: rest =>
      let key := source_key chunk in
      if negb (key_in key seen) && truthy (dict_get chunk "page_number")
      then extract_sources_from rest (sources ++ [source_of chunk]) (key :: seen)
      else extract_sources_from rest sources seen
  end.

Definition extract_sources (context_chunks : list (gmap string pyval))
    : list source :=
  extract_sources_from context_chunks [] [].

(** [conversation_history[-6:]] *)
Definition last_six {A : Type} (l : list A) : list A :=
  drop (length l - 6) l.

(** The loop over the kept history. *)
Fixpoint add_history (history : list (gmap string pyval))
    (messages : list message) : result (list message) :=
  match history with
  | [] => Ok messages
  | msg :: rest =>
      role ← subscript msg "role";
      if py_eqb role (VStr "user") then
        content ← subscript msg "content";
        add_history rest (messages ++ [HumanMessage content])
      else if py_eqb role (VStr "assistant") then
        content ← subscript msg "content";
        add_history rest (messages ++ [AIMessage content])
      else add_history rest messages
  end.

Section Service.
(** [repr] of a float, as f-strings print it. *)
Variable float_repr : float -> string.
(** [self.llm.invoke(messages).content] *)
Variable llm_invoke : list message -> result string.
(** [self.llm.stream(messages)]: the [content] of each increment, and the
    exception that ends the stream, if any. *)
Variable llm_stream : list message -> list string * option exn.

(** [str(v)], as an f-string formats a value. *)
Definition py_str (v : pyval) : string :=
  match v with
  | VNone => "None"
  | VBool true => "True"
  | VBool false => "False"
  | VInt n => pretty n
  | VFloat f => float_repr f
  | VStr s => s
  end.

(** The loop [for i, chunk in enumerate(context_chunks, 1)]. *)
Fixpoint format_parts (context_chunks : list (gmap string pyval)) (i : nat)
    (context_parts : list string) : result (list string) :=
  match context_chunks with
  | [] => Ok context_parts
  | chunk :: rest =>
      let page := dict_get_or chunk "page_number" (VStr "N/A") in
      let filename := dict_get_or chunk "filename" (VStr "Unknown") in
      text ← subscript chunk "text";
      format_parts rest (S i)
        (context_parts ++
           ["[Source " +:+ pretty i +:+ " - " +:+ py_str filename
            +:+ ", Page " +:+ py_str page +:+ "]" +:+ nl +:+ py_str text])
  end.

Definition format_context (context_chunks : list (gmap string pyval))
    : result string :=
  match context_chunks with
  | [] => Ok "No relevant context found in the documents."
  | _ =>
      context_parts ← format_parts context_chunks 1 [];
      Ok (String.concat (nl +:+ nl +:+ "---" +:+ nl +:+ nl) context_parts)
  end.

Definition build_prompt (context query : string) : string :=
  "Context from documents:" +:+ nl +:+ nl +:+ context +:+ nl +:+ nl
  +:+ "---" +:+ nl +:+ nl +:+ "Question: " +:+ query +:+ nl +:+ nl
  +:+ "Answer the question based on the context above. If you reference specific information, mention the page number.".

(** The message sequence; the same text stands in both functions. *)
Definition build_messages (query : string)
    (context_chunks : list (gmap string pyval))
    (conversation_history : option (list (gmap string pyval)))
    : result (list message) :=
  context ← format_context context_chunks;
  let prompt := build_prompt context query in
  let messages := [SystemMessage (VStr system_prompt)] in
  messages ←
    match conversation_history with
    | Some ((_ :: _) as history) => add_history (last_six history) messages
    | _ => Ok messages
    end;
  Ok (messages ++ [HumanMessage (VStr prompt)]).

Definition generate_answer (query : string)
    (context_chunks : list (gmap string pyval))
    (conversation_history : option (list (gmap string pyval)))
    : result answer_record :=
  messages ← build_messages query context_chunks conversation_history;
  response ← llm_invoke messages;
  let sources := extract_sources context_chunks in
  Ok (AnswerRecord response sources (Z.of_nat (length context_chunks))).

(** The generator, consumed to exhaustion: the elements it yields and the
    exception that ends it, if any. *)
Definition generate_answer_stream (query : string)
    (context_chunks : list (gmap string pyval))
    (conversation_history : option (list (gmap string pyval)))
    : list event * option exn :=
  match build_messages query context_chunks conversation_history with
  | Raise e => ([], Some e)
  | Ok messages =>
      let sources := extract_sources context_chunks in
      let '(increments, failure) := llm_stream messages in
      let yielded :=
        content_event <$>
          List.filter (fun content => negb (String.eqb content "")) increments in
      match failure with
      | Some e => (yielded, Some e)
      | None =>
          (yielded ++ [sources_event sources (Z.of_nat (length context_chunks))],
           None)
      end
  end.

(** A generation capability is deterministic when streaming a message
    sequence ends normally and its increments add up to the completion the
    blocking call returns for the same sequence. *)
Definition deterministic_llm : Prop :=
  forall messages,
    (llm_stream messages).2 = None /\
    llm_invoke messages = Ok (String.concat "" (llm_stream messages).1).

End Service.

(** *** The citation list, as the specification words it

    Iterate the retrieved chunks in retrieval order, drop those whose page
    number does not count, and keep the first occurrence of each
    [(document_id, page_number)] pair. *)

Definition has_page (chunk : gmap string pyval) : bool :=
  truthy (dict_get chunk "page_number").

Definition same_key (c1 c2 : gmap string pyval) : bool :=
  key_eqb (source_key c1) (source_key c2).

Equations? keep_first (chunks : list (gmap string pyval))
    : list (gmap string pyval) by wf (length chunks) lt :=
  keep_first [] := [];
  keep_first (c :: rest) :=
    c :: keep_first (List.filter (fun c' => negb (same_key c c')) rest).
Proof.
  clear keep_first. induction rest as [|c' rest IH]; simpl; [lia|].
  destruct (negb (same_key c c')); simpl; lia.
Qed.

Definition cited_chunks (chunks : list (gmap string pyval))
    : list (gmap string pyval) :=
  keep_first (List.filter has_page chunks).

(** A generation stub: answers in three increments, one of them empty. *)
Definition stub_invoke (messages : list message) : result string :=
  Ok "Page 1 says so.".

Definition stub_stream (messages : list message) : list string * option exn :=
  (["Page 1 "; ""; "says so."], None).

Definition stub_repr (f : float) : string := "<float>".

End RAGService.


(** ** Loop invariants and example data *)

Module Invariants.
Import TextChunker VectorStore.

(** The invariant of both loops of [chunk_pages]: the counter equals the
    number of chunks emitted so far, and these carry 0, 1, 2, ... *)
Definition numbered (all_chunks : list chunk) (chunk_id : Z) : Prop :=
  chunk_id = Z.of_nat (length all_chunks) /\
  chunk_id_of <$> all_chunks = counter_values (length all_chunks).

(** The id and the metadata [add_documents] gives the chunk at position [i]. *)
Definition batch_id (document_id : string) (i : nat) : string :=
  document_id +:+ "_chunk_" +:+ pretty i.

Definition batch_metadata (document_id : string) (i : nat) (c : chunk)
    : gmap string pyval :=
  <["chunk_index" := VInt (Z.of_nat i)]>
    (<["document_id" := VStr document_id]> (default ∅ (chunk_metadata c))).

Definition has_text (c : chunk) : bool :=
  match chunk_text c with Some _ => true | None => false end.

End Invariants.

Module Citations.
Import RAGService.

(** The chunks still eligible for a citation once the keys in [seen] have
    been cited. *)
Definition eligible (seen : list (pyval * pyval)) (c : gmap string pyval) : bool :=
  has_page c && negb (key_in (source_key c) seen).

End Citations.

Module Fixtures.
Import Runtime TextChunker VectorStore PDFParser PDFProcessor RAGService.

Definition page (number : Z) (text : string) : gmap string pyval :=
  <["text" := VStr text]> {["page_number" := VInt number]}.

(** The splitter as [TextChunker()] configures it, and one with a chunk size
    of 4 characters. *)
Definition config_splitter : string -> list string :=
  Splitter.split_text Splitter.CHUNK_SIZE (Splitter.fixed_width Splitter.CHUNK_SIZE).

Definition small_splitter : string -> list string :=
  Splitter.split_text 4 (Splitter.fixed_width 4).

(** A retrieved chunk as [retrieve_context] builds it. *)
Definition retrieved (document_id page_number filename : pyval) (text : string)
    (similarity : float) : gmap string pyval :=
  <["similarity" := VFloat similarity]>
  (<["filename" := filename]>
   (<["document_id" := document_id]>
    (<["page_number" := page_number]> {["text" := VStr text]}))).

(** The three chunks of the source-dedup scenario. *)
Definition dedup_chunks : list (gmap string pyval) :=
  [ retrieved (VStr "doc1") (VInt 1) (VStr "a.pdf") "alpha" 0.9%float;
    retrieved (VStr "doc1") (VInt 1) (VStr "a.pdf") "beta" 0.7%float;
    retrieved (VStr "doc1") (VInt 2) (VStr "a.pdf") "gamma" 0.6%float ].

(** A chunk retrieved from a passage stored without page number or filename:
    [metadata.get] gave [None] for both. *)
Definition unpaged_chunk : gmap string pyval :=
  retrieved VNone VNone VNone "t" 0.5%float.

(** A chunk that lacks both keys altogether. *)
Definition bare_chunk : gmap string pyval := {["text" := VStr "t"]}.

(** A chunk whose page number is present and is 0. *)
Definition page_zero_chunk : gmap string pyval :=
  retrieved (VStr "doc1") (VInt 0) (VStr "a.pdf") "cover" 0.9%float.

(** A world with one uploaded PDF and an empty index. *)
Definition upload_world : world :=
  World {["uploads/temp_notes.pdf" := "hello world"]} ∅ [] "2024-01-01T00:00:00".

(** A world whose collection "documents" holds two passages of document
    [d1] and one of [d2]. *)
Definition indexed_world : world :=
  World ∅
    {["documents" :=
        Collection {["hnsw:space" := VStr "cosine"]}
          [ Entry "d1_chunk_0" (VStr "a") {["document_id" := VStr "d1"]};
            Entry "d2_chunk_0" (VStr "b") {["document_id" := VStr "d2"]};
            Entry "d1_chunk_1" (VStr "c") {["document_id" := VStr "d1"]} ]]}
    [] "2024-01-01T00:00:00".

End Fixtures.

(** ** text_chunker.py: [chunk_text] *)

Module ChunkText.

(** One dict of the list [chunk_text] returns. *)
Record text_chunk : Type := TextChunk {
  tc_text : string;
  tc_chunk_index : Z;
  tc_metadata : gmap string pyval
}.

Section Chunker.
Variable split_text : string -> list string.

(** The loop [for i, chunk in enumerate(chunks)]. *)
Fixpoint chunk_text_from (chunks : list string) (i : Z)
    (metadata : option (gmap string pyval)) (result : list text_chunk)
    : list text_chunk :=
  match chunks with
  | [] => result
  | chunk :: rest =>
      chunk_text_from rest (i + 1) metadata
        (result ++ [TextChunk chunk i (default ∅ metadata)])
  end.

Definition chunk_text (text : string) (metadata : option (gmap string pyval))
    : list text_chunk :=
  chunk_text_from (split_text text) 0 metadata [].

End Chunker.

(** The dict as [add_documents] reads it: it has a [text] and a [metadata]
    key; [chunk_index] is not looked at. *)
Definition as_chunk (c : text_chunk) : TextChunker.chunk :=
  TextChunker.Chunk (Some (VStr (tc_text c))) (Some (tc_metadata c)).

End ChunkText.

(** ** vector_store.py: [get_collection_count] *)

Module VectorStoreOps.
Import Runtime VectorStore.

Section Count.
(** [collection.count()] *)
Variable collection_count : collection -> result Z.

Definition get_collection_count (collection_name : string) : Py Z :=
  outcome ← attempt (
    collection ← get_collection collection_name;
    lift (collection_count collection));
  match outcome with
  | Ok n => mret n
  | Raise _ => mret 0
  end.
End Count.

(** The count of the reference index. *)
Definition mem_count (c : collection) : result Z :=
  Ok (Z.of_nat (length (coll_entries c))).

End VectorStoreOps.

(** ** pdf_processor.py: [delete_document] *)

Module PDFProcessorOps.
Import Runtime.

(** The dict [delete_document] returns. *)
Record deletion_result : Type := DeletionResult {
  del_document_id : string;
  del_status : string
}.

(** [path.exists()] *)
Definition path_exists (path : string) : Py bool :=
  w ← get_world;
  mret (match files w !! path with Some _ => true | None => false end).

Definition remove_file (path : string) : Py unit :=
  MkPy (fun w : world =>
    (World (delete path (files w)) (chroma w) (stdout w) (clock w), Ok tt)).

(** [path.unlink()] *)
Definition unlink (path : string) : Py unit :=
  w ← get_world;
  match files w !! path with
  | Some _ => remove_file path
  | None => raise (FileNotFoundError path)
  end.

Section Processor.
Variable collection_delete :
  collection -> gmap string pyval -> result collection.
Variable uploads_dir : string.

Definition delete_document (document_id collection_name : string)
    : Py deletion_result :=
  VectorStore.delete_document collection_delete collection_name document_id;;
  let pdf_path := Pathlib.join uploads_dir (document_id +:+ ".pdf") in
  present ← path_exists pdf_path;
  (if present : bool then unlink pdf_path else mret tt);;
  mret (DeletionResult document_id "deleted").

End Processor.

End PDFProcessorOps.

(** ** rag_service.py: [retrieve_context], [chat], [chat_stream] *)

Module RAGPipeline.
Import Runtime VectorStore RAGService.

(** The loop over [zip(documents, metadatas, distances)]. *)
Fixpoint collect_context (documents : list pyval)
    (metadatas : list (gmap string pyval)) (distances : list float)
    (context_chunks : list (gmap string pyval)) : list (gmap string pyval) :=
  match documents, metadatas, distances with
  | doc :: documents', metadata :: metadatas', distance :: distances' =>
      collect_context documents' metadatas' distances'
        (context_chunks ++
           [ <["similarity" := VFloat (1 - distance)%float]>
             (<["filename" := dict_get metadata "filename"]>
              (<["document_id" := dict_get metadata "document_id"]>
               (<["page_number" := dict_get metadata "page_number"]>
                {["text" := doc]}))) ])
  | _, _, _ => context_chunks
  end.

(** [{"document_id": document_id} if document_id else None] *)
Definition filter_of (document_id : option string)
    : option (gmap string pyval) :=
  match document_id with
  | Some id =>
      if String.eqb id "" then None else Some {["document_id" := VStr id]}
  | None => None
  end.

Section Pipeline.
Variable float_repr : float -> string.
Variable llm_invoke : list message -> result string.
Variable llm_stream : list message -> list string * option exn.
Variable collection_query :
  collection -> string -> Z -> option (gmap string pyval) ->
  result query_response.

Definition retrieve_context (query_text collection_name : string)
    (n_results : Z) (document_id : option string)
    : Py (list (gmap string pyval)) :=
  let filter_dict := filter_of document_id in
  results ← query collection_query collection_name query_text n_results
              filter_dict;
  mret (collect_context (documents results) (metadatas results)
          (distances results) []).

Definition chat (query_text collection_name : string)
    (document_id : option string)
    (conversation_history : option (list (gmap string pyval)))
    (n_results : Z) : Py answer_record :=
  context_chunks ← retrieve_context query_text collection_name n_results
                     document_id;
  lift (generate_answer float_repr llm_invoke query_text context_chunks
          conversation_history).

(** The generator, consumed to exhaustion. *)
Definition chat_stream (query_text collection_name : string)
    (document_id : option string)
    (conversation_history : option (list (gmap string pyval)))
    (n_results : Z) : Py (list event * option exn) :=
  retrieved ← attempt (retrieve_context query_text collection_name n_results
                         document_id);
  match retrieved with
  | Raise e => mret ([], Some e)
  | Ok context_chunks =>
      mret (generate_answer_stream float_repr llm_stream query_text
              context_chunks conversation_history)
  end.

End Pipeline.

(** An index that answers every query with the same two passages. *)
Definition two_hits (c : collection) (query_text : string) (n_results : Z)
    (filter_dict : option (gmap string pyval)) : result query_response :=
  Ok (QueryResponse
        (Some [[VStr "alpha"; VStr "beta"]])
        (Some [[ <["filename" := VStr "a.pdf"]>
                 (<["document_id" := VStr "doc1"]> {["page_number" := VInt 1]});
                 ∅ ]])
        (Some [[0.25%float; 0.5%float]])
        (Some [["doc1_chunk_0"; "x_chunk_0"]])).

End RAGPipeline.

(** ** main.py: progress tracking and the background task *)

Module Server.
Import Runtime PDFParser PDFProcessor PDFProcessorOps.

(** One value of the global [processing_status] dict; [st_result] is [None]
    where the dict has no [result] key. *)
Record status_entry : Type := StatusEntry {
  st_status : string;
  st_message : string;
  st_progress : Z;
  st_current_stage : string;
  st_result : option processing_result;
  st_timestamp : string
}.

(** The world, the global [processing_status], and the [current_stage] field
    of the [ProcessingProgress] object of each task. *)
Record app_state : Type := AppState {
  app_world : world;
  processing_status : gmap string status_entry;
  trackers : gmap string nat
}.

Inductive server_exn : Type :=
  | Inner (e : exn)
  | IndexError (msg : string)
  | OverflowError (msg : string).

(** [str(e)] *)
Definition server_exn_str (e : server_exn) : string :=
  match e with
  | Inner e => exn_str e
  | IndexError m => m
  | OverflowError m => m
  end.

Inductive outcome (A : Type) : Type :=
  | Done (a : A)
  | Failed (e : server_exn).
Arguments Done {A} a.
Arguments Failed {A} e.

Record Srv (A : Type) : Type :=
  MkSrv { srv_run : app_state -> app_state * outcome A }.
Arguments MkSrv {A} srv_run.
Arguments srv_run {A} s a.

Global Instance Srv_ret : MRet Srv := fun A a => MkSrv (fun s => (s, Done a)).
Global Instance Srv_bind : MBind Srv := fun A B f m =>
  MkSrv (fun s =>
    match srv_run m s with
    | (s', Done a) => srv_run (f a) s'
    | (s', Failed e) => (s', Failed e)
    end).

Definition srv_raise {A : Type} (e : server_exn) : Srv A :=
  MkSrv (fun s => (s, Failed e)).

(** [try: m] with the outcome handed to the continuation. *)
Definition srv_attempt {A : Type} (m : Srv A) : Srv (outcome A) :=
  MkSrv (fun s => let '(s', r) := srv_run m s in (s', Done r)).

(** A computation of the backend, run on the world of the server. *)
Definition in_world {A : Type} (m : Py A) : Srv A :=
  MkSrv (fun s =>
    let '(w', r) := run m (app_world s) in
    (AppState w' (processing_status s) (trackers s),
     match r with Ok a => Done a | Raise e => Failed (Inner e) end)).

Definition set_status (task_id : string) (entry : status_entry) : Srv unit :=
  MkSrv (fun s =>
    (AppState (app_world s) (<[task_id := entry]> (processing_status s))
       (trackers s), Done tt)).

Definition set_stage (task_id : string) (stage : nat) : Srv unit :=
  MkSrv (fun s =>
    (AppState (app_world s) (processing_status s)
       (<[task_id := stage]> (trackers s)), Done tt)).

(** [self.current_stage] *)
Definition get_stage (task_id : string) : Srv nat :=
  MkSrv (fun s => (s, Done (default 0%nat (trackers s !! task_id)))).

Definition stages : list string :=
  ["Uploading file"; "Extracting text"; "Chunking text";
   "Generating embeddings"; "Storing in database"; "Complete"].

(** [self.stages[i]] for [i >= 0] *)
Definition stage_at (i : nat) : Srv string :=
  match stages !! i with
  | Some name => mret name
  | None => srv_raise (IndexError "list index out of range")
  end.

(** [int(x)]: truncation toward zero; infinities and NaN have no integer. *)
Definition int_of_float (f : float) : option Z :=
  match Prim2SF f with
  | S754_zero _ => Some 0
  | S754_finite s m e =>
      let mag := if 0 <=? e then Z.pos m * 2 ^ e else Z.pos m / 2 ^ (- e) in
      Some (if s then - mag else mag)
  | _ => None
  end.

Definition float_of_nat (n : nat) : float :=
  PrimFloat.of_uint63 (Uint63Axioms.of_Z (Z.of_nat n)).

(** [int((current_stage / len(self.stages)) * 100)] *)
Definition percent (current_stage : nat) : Srv Z :=
  match int_of_float
          ((float_of_nat current_stage / float_of_nat (length stages)) * 100)%float
  with
  | Some n => mret n
  | None => srv_raise (OverflowError "cannot convert float infinity to integer")
  end.

Definition timestamp : Srv string := in_world datetime_now_isoformat.

Definition update_status (task_id status message : string) (progress : Z)
    : Srv unit :=
  current_stage ← get_stage task_id;
  name ← stage_at (min current_stage (length stages - 1));
  now ← timestamp;
  set_status task_id (StatusEntry status message progress name None now).

(** [ProcessingProgress(task_id)] *)
Definition new_progress (task_id : string) : Srv unit :=
  set_stage task_id 0;;
  update_status task_id "started" "Initializing..." 0.

Definition next_stage (task_id : string) (message : option string) : Srv unit :=
  current_stage ← get_stage task_id;
  set_stage task_id (current_stage + 1);;
  current_stage ← get_stage task_id;
  progress ← percent current_stage;
  stage_message ←
    match message with
    | Some m => if String.eqb m "" then stage_at (min current_stage (length stages - 1))
                else mret m
    | None => stage_at (min current_stage (length stages - 1))
    end;
  update_status task_id "processing" stage_message progress.

Definition complete (task_id : string) (result : processing_result) : Srv unit :=
  set_stage task_id (length stages - 1);;
  now ← timestamp;
  set_status task_id
    (StatusEntry "completed" "Processing complete" 100 "Complete" (Some result) now).

Definition error (task_id error_message : string) : Srv unit :=
  current_stage ← get_stage task_id;
  progress ← percent current_stage;
  name ← stage_at current_stage;
  now ← timestamp;
  set_status task_id (StatusEntry "failed" error_message progress name None now).

Section Background.
Variable split_text : string -> list string.
Variable fitz_open : string -> result fitz_document.
Variable name_check : string -> result unit.
Variable collection_add :
  collection -> list string -> list pyval -> list (gmap string pyval) ->
  result collection.
Variable same_file : string -> string -> bool.
Variable uploads_dir : string.

(** One run of the coroutine, with no other task running in between. *)
Definition process_pdf_background (task_id file_path document_id : string)
    : Srv unit :=
  new_progress task_id;;
  attempted ← srv_attempt (
    next_stage task_id (Some "File uploaded successfully");;
    next_stage task_id (Some "Extracting text from PDF...");;
    next_stage task_id (Some "Chunking text for processing...");;
    next_stage task_id (Some "Generating embeddings...");;
    result ← in_world (process_pdf split_text fitz_open name_check
                         collection_add same_file uploads_dir file_path
                         (Some document_id) "documents");
    next_stage task_id (Some "Finalizing...");;
    complete task_id result);
  match attempted with
  | Done _ => mret tt
  | Failed e =>
      error task_id ("Error processing PDF: " +:+ server_exn_str e);;
      present ← in_world (path_exists file_path);
      if present : bool then in_world (unlink file_path) else mret tt
  end.

End Background.

End Server.

(** ** What the loops compute, position by position *)

Module Shapes.
Import TextChunker RAGService RAGPipeline.

(** The text and the page number a chunk carries. *)
Definition text_and_page (c : chunk) : option pyval * option pyval :=
  (chunk_text c, chunk_metadata c ≫= (fun md => md !! "page_number")).

(** The pieces of one page, each with the page's number. *)
Definition page_pieces (split_text : string -> list string)
    (page : gmap string pyval) : list (option pyval * option pyval) :=
  match page !! "text", page !! "page_number" with
  | Some (VStr s), Some pn =>
      (fun piece => (Some (VStr piece), Some pn)) <$> split_text s
  | _, _ => []
  end.

(** A chunk as [chunk_pages] builds it for document metadata [dm]: a text,
    and a metadata dict that holds every entry of [dm], a page number and a
    chunk id. *)
Definition built_chunk (dm : gmap string pyval) (c : chunk) : Prop :=
  exists piece md,
    c = Chunk (Some (VStr piece)) (Some md) /\
    (forall k v, dm !! k = Some v -> md !! k = Some v) /\
    is_Some (md !! "page_number") /\
    is_Some (md !! "chunk_id").

(** The page dict [extract_text] builds for the page at position [i]. *)
Definition page_at (i : nat) (text : string) : gmap string pyval :=
  <["text" := VStr text]> {["page_number" := VInt (Z.of_nat i + 1)]}.

(** The chunk [retrieve_context] builds from one hit. *)
Definition context_chunk (hit : pyval * gmap string pyval * float)
    : gmap string pyval :=
  <["similarity" := VFloat (1 - hit.2)%float]>
  (<["filename" := dict_get hit.1.2 "filename"]>
   (<["document_id" := dict_get hit.1.2 "document_id"]>
    (<["page_number" := dict_get hit.1.2 "page_number"]>
     {["text" := hit.1.1]}))).

(** A new collection, as [create_collection] configures it. *)
Definition empty_cosine : Runtime.collection :=
  Runtime.Collection {["hnsw:space" := VStr "cosine"]} [].

(** The world after the line [process_pdf] prints first. *)
Definition started (pdf_path : string) (w : Runtime.world) : Runtime.world :=
  Runtime.World (Runtime.files w) (Runtime.chroma w)
    (Runtime.stdout w ++ ["Processing PDF: " +:+ Pathlib.name pdf_path])
    (Runtime.clock w).

(** A retrieved chunk has all five keys. *)
Definition complete_chunk (c : gmap string pyval) : Prop :=
  is_Some (c !! "text") /\ is_Some (c !! "page_number") /\
  is_Some (c !! "document_id") /\ is_Some (c !! "filename") /\
  is_Some (c !! "similarity").

(** Two entries of the sources list cite different pairs. *)
Definition distinct_keys (s1 s2 : source) : Prop :=
  key_eqb (src_document_id s1, src_page_number s1)
          (src_document_id s2, src_page_number s2) = false.

(** The key of an entry of the sources list. *)
Definition cited_key (s : source) : pyval * pyval :=
  (src_document_id s, src_page_number s).

End Shapes.

Module MoreFixtures.
Import Runtime Server.

(** A server with one uploaded PDF, an empty index and no task yet. *)
Definition idle_server : app_state := AppState Fixtures.upload_world ∅ ∅.

Definition user_turn : gmap string pyval :=
  <["content" := VStr "hi"]> {["role" := VStr "user"]}.

(** Six well-formed turns, and an older entry without [role]. *)
Definition six_turns : list (gmap string pyval) := replicate 6 user_turn.

Definition stale_turn : gmap string pyval := {["content" := VStr "old"]}.

(** A world in which the archive of document [notes] is there and is
    reached by a second path too, and the file system that says so. *)
Definition archived_world : world :=
  World
    (<["uploads/../uploads/notes.pdf" := "hello world"]>
       {["uploads/notes.pdf" := "hello world"]})
    ∅ [] "2024-01-01T00:00:00".

Definition notes_alias : string -> string -> bool :=
  PDFProcessor.aliased "uploads/../uploads/notes.pdf" "uploads/notes.pdf".

End MoreFixtures.

(** * Properties *)

(** ** The chunker *)

Module ChunkerFacts.
Import TextChunker Invariants Fixtures.

Lemma counter_values_snoc (n : nat) :
  counter_values (S n) = counter_values n ++ [Some (VInt (Z.of_nat n))].
Proof.
  unfold counter_values. rewrite seq_S, fmap_app. reflexivity.
Qed.

(** A document metadata dict without a [chunk_id] key leaves the counter
    value in the merged metadata. *)
Lemma chunk_id_of_merged (dm : option (gmap string pyval)) (pn : pyval)
    (piece : string) (id : Z) :
  default ∅ dm !! "chunk_id" = None ->
  chunk_id_of
    (Chunk (Some (VStr piece))
       (Some (default ∅ dm ∪ <["chunk_id" := VInt id]> {["page_number" := pn]})))
  = Some (VInt id).
Proof.
  intros Hfree. unfold chunk_id_of. simpl.
  rewrite lookup_union_r by exact Hfree.
  apply lookup_insert_eq.
Qed.

Section Loops.
Variable split_text : string -> list string.

Lemma emit_chunks_numbered (chunks : list string) (pn : pyval)
    (dm : option (gmap string pyval)) :
  default ∅ dm !! "chunk_id" = None ->
  forall all_chunks chunk_id,
    numbered all_chunks chunk_id ->
    numbered (emit_chunks chunks pn dm all_chunks chunk_id).1
             (emit_chunks chunks pn dm all_chunks chunk_id).2.
Proof.
  intros Hfree. induction chunks as [|piece rest IH]; intros all_chunks chunk_id Hinv.
  - exact Hinv.
  - simpl. apply IH. destruct Hinv as [Hid Hvals]. split.
    + rewrite length_app. simpl. lia.
    + rewrite fmap_app, length_app, Hvals. simpl.
      rewrite Nat.add_1_r, counter_values_snoc.
      rewrite chunk_id_of_merged by exact Hfree.
      rewrite Hid. reflexivity.
Qed.

Lemma chunk_pages_from_numbered (pages : list (gmap string pyval))
    (dm : option (gmap string pyval)) :
  default ∅ dm !! "chunk_id" = None ->
  forall all_chunks chunk_id out,
    numbered all_chunks chunk_id ->
    chunk_pages_from split_text pages dm all_chunks chunk_id = Ok out ->
    chunk_id_of <$> out = counter_values (length out).
Proof.
  intros Hfree. induction pages as [|page rest IH]; intros all_chunks chunk_id out Hinv Hrun.
  - simpl in Hrun. injection Hrun as <-. apply Hinv.
  - simpl in Hrun.
    destruct (subscript page "text") as [page_text|]; simpl in Hrun; [|discriminate].
    destruct (subscript page "page_number") as [pn|]; simpl in Hrun; [|discriminate].
    destruct (split_page_text split_text page_text) as [chunks|]; simpl in Hrun;
      [|discriminate].
    pose proof (emit_chunks_numbered chunks pn dm Hfree _ _ Hinv) as Hstep.
    destruct (emit_chunks chunks pn dm all_chunks chunk_id) as [all' id'].
    eapply IH; eassumption.
Qed.

(** On pages that carry both keys and a string as text, the loop returns. *)
Lemma chunk_pages_from_returns (pages : list (gmap string pyval))
    (dm : option (gmap string pyval)) :
  forallb well_formed_page pages = true ->
  forall all_chunks chunk_id,
    exists out, chunk_pages_from split_text pages dm all_chunks chunk_id = Ok out.
Proof.
  induction pages as [|page rest IH]; intros Hwf all_chunks chunk_id.
  - eexists. reflexivity.
  - simpl in Hwf. apply andb_prop in Hwf as [Hpage Hrest].
    unfold well_formed_page in Hpage. simpl. unfold subscript.
    destruct (page !! "text") as [[| | | |s]|]; try discriminate.
    destruct (page !! "page_number") as [pn|]; try discriminate.
    simpl.
    destruct (emit_chunks (split_text s) pn dm all_chunks chunk_id) as [all' id'].
    apply IH, Hrest.
Qed.

End Loops.

(** C2, as amended: when the document metadata mapping has no [chunk_id] key
    (as the mapping [process_pdf] builds), the chunk ids stored in the chunks
    [chunk_pages] returns are exactly 0, 1, 2, ... in output order, one counter
    running across all pages; and [chunk_pages] does return on every list of
    pages that carry a text string and a page number. *)
Theorem chunk_pages_ids_count_from_zero (split_text : string -> list string)
    (pages : list (gmap string pyval)) (doc_metadata : option (gmap string pyval)) :
  default ∅ doc_metadata !! "chunk_id" = None ->
  (forall out,
     chunk_pages split_text pages doc_metadata = Ok out ->
     chunk_id_of <$> out = counter_values (length out)) /\
  (forallb well_formed_page pages = true ->
   exists out, chunk_pages split_text pages doc_metadata = Ok out).
Proof.
  intros Hfree. split.
  - intros out Hrun. unfold chunk_pages in Hrun.
    eapply chunk_pages_from_numbered; [exact Hfree| |exact Hrun].
    split; reflexivity.
  - intros Hwf. apply chunk_pages_from_returns, Hwf.
Qed.

Lemma chunk_pages_ids_count_from_zero_witness :
  exists out,
    chunk_pages small_splitter
      [page 1 "abcdefghij"; page 2 ""; page 3 "xy"]
      (Some {["document_id" := VStr "d"]}) = Ok out /\
    chunk_id_of <$> out = counter_values (length out).
Proof.
  destruct (chunk_pages_ids_count_from_zero small_splitter
              [page 1 "abcdefghij"; page 2 ""; page 3 "xy"]
              (Some {["document_id" := VStr "d"]})) as [Hids Hret].
  { vm_compute. reflexivity. }
  destruct Hret as [out Hout].
  { vm_compute. reflexivity. }
  exists out. split; [exact Hout | exact (Hids out Hout)].
Defined.

(** C2, as stated, fails: a document metadata mapping that has a [chunk_id]
    key of its own overrides the counter in every chunk. *)
Lemma chunk_pages_chunk_id_overridden :
  exists out,
    chunk_pages config_splitter [page 1 "intro"; page 2 "body"]
      (Some {["chunk_id" := VInt 7]}) = Ok out /\
    chunk_id_of <$> out = [Some (VInt 7); Some (VInt 7)] /\
    chunk_id_of <$> out <> counter_values (length out).
Proof.
  eexists. split; [vm_compute; reflexivity|]. split; [reflexivity|].
  vm_compute. discriminate.
Qed.

(** *** Short, blank and empty pages *)

Lemma drop_while_none (fuel : nat) (patterns : list (list ascii))
    (bytes : list ascii) :
  Str.drop_first patterns bytes = None ->
  Str.drop_while fuel patterns bytes = bytes.
Proof.
  intros Hnone. destruct fuel as [|fuel]; [reflexivity|].
  cbn [Str.drop_while]. rewrite Hnone. reflexivity.
Qed.

(** A text that neither starts nor ends with whitespace is its own strip. *)
Lemma strip_unpadded (s : string) :
  Str.starts_with_space s = false ->
  Str.ends_with_space s = false ->
  Str.strip s = s.
Proof.
  unfold Str.starts_with_space, Str.ends_with_space, Str.strip.
  intros Hstart Hend.
  destruct (Str.drop_first Str.whitespace (list_ascii_of_string s)) eqn:Hl;
    [discriminate|].
  destruct (Str.drop_first (rev (A:=ascii) <$> Str.whitespace)
              (rev (list_ascii_of_string s))) eqn:Hr; [discriminate|].
  unfold Str.lstrip_bytes. rewrite (drop_while_none _ _ _ Hl).
  unfold Str.rstrip_bytes. rewrite (drop_while_none _ _ _ Hr).
  rewrite rev_involutive. apply string_of_list_ascii_of_string.
Qed.

Section ShortPages.
Variable chunk_size : nat.
Variable split_oversize : string -> list string.
Let split_text := Splitter.split_text chunk_size split_oversize.

Lemma split_text_empty : split_text "" = [].
Proof. reflexivity. Qed.

(** A text that fits in one chunk comes back stripped, or not at all. *)
Lemma split_text_fits (s : string) :
  (2 <= chunk_size)%nat -> (Str.len s <= chunk_size)%nat ->
  split_text s = if String.eqb (Str.strip s) "" then [] else [Str.strip s].
Proof.
  intros Hsize Hlen. unfold split_text, Splitter.split_text.
  destruct (String.eqb s "") eqn:Hs.
  - apply String.eqb_eq in Hs. subst s. reflexivity.
  - apply Nat.leb_le in Hsize, Hlen. rewrite Hsize, Hlen. reflexivity.
Qed.

(** A page whose text the splitter gives no piece for leaves the list of
    chunks and the counter as they are. *)
Lemma chunk_pages_from_skips (page : gmap string pyval) (s : string) (pn : pyval)
    (dm : option (gmap string pyval)) (before after : list (gmap string pyval)) :
  page !! "text" = Some (VStr s) ->
  page !! "page_number" = Some pn ->
  split_text s = [] ->
  forall all_chunks chunk_id,
    chunk_pages_from split_text (before ++ page :: after) dm all_chunks chunk_id
    = chunk_pages_from split_text (before ++ after) dm all_chunks chunk_id.
Proof.
  intros Htext Hpn Hnone. induction before as [|p rest IH]; intros all_chunks chunk_id.
  - simpl. unfold subscript. rewrite Htext, Hpn. simpl. rewrite Hnone. reflexivity.
  - simpl.
    destruct (subscript p "text") as [page_text|]; simpl; [|reflexivity].
    destruct (subscript p "page_number") as [pn'|]; simpl; [|reflexivity].
    destruct (split_page_text split_text page_text) as [chunks|]; simpl; [|reflexivity].
    destruct (emit_chunks chunks pn' dm all_chunks chunk_id) as [all' id'].
    apply IH.
Qed.

(** C5, as amended: with a chunk size of 2 or more, a page whose text has at
    most chunk-size characters and is not whitespace only gives, alone,
    exactly one chunk, whose text is the page text stripped of surrounding
    whitespace; this is the page text itself, character for character, when
    the text is non-empty and neither starts nor ends with whitespace. A
    page whose text is empty, or has at most chunk-size characters and is
    whitespace only, contributes no chunk, wherever it stands in the list of
    pages. *)
Theorem chunk_pages_short_pages_stripped (page : gmap string pyval) (s : string)
    (pn : pyval) (doc_metadata : option (gmap string pyval)) :
  page !! "text" = Some (VStr s) ->
  page !! "page_number" = Some pn ->
  ((2 <= chunk_size)%nat -> (Str.len s <= chunk_size)%nat ->
   Str.strip s <> "" ->
   chunk_pages split_text [page] doc_metadata
   = Ok [Chunk (Some (VStr (Str.strip s)))
           (Some (default ∅ doc_metadata
                    ∪ <["chunk_id" := VInt 0]> {["page_number" := pn]}))]) /\
  ((2 <= chunk_size)%nat -> (Str.len s <= chunk_size)%nat ->
   s <> "" -> Str.starts_with_space s = false -> Str.ends_with_space s = false ->
   chunk_pages split_text [page] doc_metadata
   = Ok [Chunk (Some (VStr s))
           (Some (default ∅ doc_metadata
                    ∪ <["chunk_id" := VInt 0]> {["page_number" := pn]}))]) /\
  (s = "" \/
   ((2 <= chunk_size)%nat /\ (Str.len s <= chunk_size)%nat /\ Str.strip s = "") ->
   forall before after,
     chunk_pages split_text (before ++ page :: after) doc_metadata
     = chunk_pages split_text (before ++ after) doc_metadata).
Proof.
  intros Htext Hpn.
  assert (Hone : (2 <= chunk_size)%nat -> (Str.len s <= chunk_size)%nat ->
                 Str.strip s <> "" ->
                 chunk_pages split_text [page] doc_metadata
                 = Ok [Chunk (Some (VStr (Str.strip s)))
                         (Some (default ∅ doc_metadata
                                  ∪ <["chunk_id" := VInt 0]>
                                      {["page_number" := pn]}))]).
  { intros Hsize Hlen Hne. unfold chunk_pages. simpl. unfold subscript.
    rewrite Htext, Hpn. simpl. rewrite split_text_fits by assumption.
    apply String.eqb_neq in Hne. rewrite Hne. reflexivity. }
  split; [exact Hone|]. split.
  - intros Hsize Hlen Hne Hstart Hend.
    pose proof (strip_unpadded s Hstart Hend) as Hstrip.
    assert (Hne' : Str.strip s <> "") by (rewrite Hstrip; exact Hne).
    pose proof (Hone Hsize Hlen Hne') as Hrun.
    rewrite Hstrip in Hrun. exact Hrun.
  - intros Hblank before after. unfold chunk_pages.
    eapply chunk_pages_from_skips; [eassumption..|].
    destruct Hblank as [->|(Hsize & Hlen & Hstrip)]; [reflexivity|].
    rewrite split_text_fits by assumption. rewrite Hstrip. reflexivity.
Qed.

End ShortPages.

Lemma chunk_pages_short_pages_stripped_witness :
  chunk_pages config_splitter [page 3 (" hello world" +:+ PDFParser.nl)] None
  = Ok [Chunk (Some (VStr "hello world"))
          (Some (∅ ∪ <["chunk_id" := VInt 0]> {["page_number" := VInt 3]}))] /\
  chunk_pages config_splitter [page 3 "hello world"] None
  = Ok [Chunk (Some (VStr "hello world"))
          (Some (∅ ∪ <["chunk_id" := VInt 0]> {["page_number" := VInt 3]}))] /\
  chunk_pages config_splitter
    ([page 1 "a"] ++ page 2 (" " +:+ PDFParser.nl) :: [page 3 "b"]) None
  = chunk_pages config_splitter ([page 1 "a"] ++ [page 3 "b"]) None.
Proof.
  split; [|split].
  - apply (chunk_pages_short_pages_stripped Splitter.CHUNK_SIZE
             (Splitter.fixed_width Splitter.CHUNK_SIZE)
             (page 3 (" hello world" +:+ PDFParser.nl))
             (" hello world" +:+ PDFParser.nl) (VInt 3) None).
    + vm_compute. reflexivity.
    + vm_compute. reflexivity.
    + apply Nat.leb_le. vm_compute. reflexivity.
    + apply Nat.leb_le. vm_compute. reflexivity.
    + vm_compute. discriminate.
  - apply (chunk_pages_short_pages_stripped Splitter.CHUNK_SIZE
             (Splitter.fixed_width Splitter.CHUNK_SIZE)
             (page 3 "hello world") "hello world" (VInt 3) None).
    + vm_compute. reflexivity.
    + vm_compute. reflexivity.
    + apply Nat.leb_le. vm_compute. reflexivity.
    + apply Nat.leb_le. vm_compute. reflexivity.
    + discriminate.
    + vm_compute. reflexivity.
    + vm_compute. reflexivity.
  - apply (chunk_pages_short_pages_stripped Splitter.CHUNK_SIZE
             (Splitter.fixed_width Splitter.CHUNK_SIZE)
             (page 2 (" " +:+ PDFParser.nl)) (" " +:+ PDFParser.nl) (VInt 2) None).
    + vm_compute. reflexivity.
    + vm_compute. reflexivity.
    + right. split; [|split].
      * apply Nat.leb_le. vm_compute. reflexivity.
      * apply Nat.leb_le. vm_compute. reflexivity.
      * vm_compute. reflexivity.
Defined.

(** C5, as stated, fails: a page text within the chunk size that starts or
    ends with whitespace comes back without it, and a page text that is a
    single line break, which is not empty, gives no chunk at all. *)
Lemma chunk_pages_padded_page_is_stripped :
  " hello world" +:+ PDFParser.nl <> "" /\
  (Str.len (" hello world" +:+ PDFParser.nl) <= Splitter.CHUNK_SIZE)%nat /\
  chunk_pages config_splitter [page 1 (" hello world" +:+ PDFParser.nl)] None
  = Ok [Chunk (Some (VStr "hello world"))
          (Some (∅ ∪ <["chunk_id" := VInt 0]> {["page_number" := VInt 1]}))] /\
  "hello world" <> " hello world" +:+ PDFParser.nl /\
  PDFParser.nl <> "" /\
  (Str.len PDFParser.nl <= Splitter.CHUNK_SIZE)%nat /\
  chunk_pages config_splitter [page 1 PDFParser.nl] None = Ok [].
Proof.
  split; [vm_compute; discriminate|].
  split; [apply Nat.leb_le; vm_compute; reflexivity|].
  split; [vm_compute; reflexivity|].
  split; [vm_compute; discriminate|].
  split; [vm_compute; discriminate|].
  split; [apply Nat.leb_le; vm_compute; reflexivity|].
  vm_compute. reflexivity.
Qed.

End ChunkerFacts.

(** ** The monad *)

Module RuntimeFacts.
Import Runtime.

Lemma run_bind {A B : Type} (m : Py A) (f : A -> Py B) (w : world) :
  run (m ≫= f) w
  = match run m w with
    | (w', Ok a) => run (f a) w'
    | (w', Raise e) => (w', Raise e)
    end.
Proof. reflexivity. Qed.

Lemma run_lift {A : Type} (r : result A) (w : world) : run (lift r) w = (w, r).
Proof. reflexivity. Qed.

Lemma run_get_world (w : world) : run get_world w = (w, Ok w).
Proof. reflexivity. Qed.

Lemma run_mret {A : Type} (a : A) (w : world) : run (mret a) w = (w, Ok a).
Proof. reflexivity. Qed.

Lemma run_print (line : string) (w : world) :
  run (print line) w
  = (World (files w) (chroma w) (stdout w ++ [line]) (clock w), Ok tt).
Proof. reflexivity. Qed.

End RuntimeFacts.

(** ** The vector index adapter *)

Module VectorStoreFacts.
Import Runtime TextChunker VectorStore Invariants Fixtures RuntimeFacts.

(** A [where] filter on [document_id] alone selects the passages of that
    document. *)
Lemma matches_where_document_id (document_id : string) (e : entry) :
  matches_where {["document_id" := VStr document_id]} (entry_metadata e)
  = of_document document_id e.
Proof.
  unfold matches_where, of_document. rewrite map_to_list_singleton. simpl.
  destruct (entry_metadata e !! "document_id") as [[| | | |s]|]; simpl;
    auto using andb_true_r.
Qed.

Lemma filter_twice {A : Type} (keep : A -> bool) (l : list A) :
  List.filter keep (List.filter keep l) = List.filter keep l.
Proof.
  induction l as [|x l IH]; simpl; [reflexivity|].
  destruct (keep x) eqn:Hx; simpl; [rewrite Hx, IH|]; auto.
Qed.

Lemma without_matching_twice (c : collection) (where_ : gmap string pyval) :
  without_matching (without_matching c where_) where_ = without_matching c where_.
Proof.
  unfold without_matching. simpl. rewrite filter_twice. reflexivity.
Qed.

Section Adapter.
Variable name_check : string -> result unit.
Variable collection_add :
  collection -> list string -> list pyval -> list (gmap string pyval) ->
  result collection.
Variable collection_query :
  collection -> string -> Z -> option (gmap string pyval) ->
  result query_response.
Variable collection_delete :
  collection -> gmap string pyval -> result collection.

(** C6: a query against a collection that does not exist returns the dict of
    four empty lists, raises nothing and leaves the world as it is, whatever
    the query text, the number of results and the filter. *)
Theorem query_absent_collection (collection_name query_text : string)
    (n_results : Z) (filter_dict : option (gmap string pyval)) (w : world) :
  chroma w !! collection_name = None ->
  run (query collection_query collection_name query_text n_results filter_dict) w
  = (w, Ok (QueryResult [] [] [] [])).
Proof.
  intros Habsent. unfold query, attempt, get_collection. cbn.
  rewrite Habsent. reflexivity.
Qed.

(** What one call of [delete_document] does, case by case. *)
Lemma delete_document_run (collection_name document_id : string) (w : world) :
  run (delete_document collection_delete collection_name document_id) w
  = match chroma w !! collection_name with
    | None =>
        (World (files w) (chroma w)
           (stdout w ++
              ["Error deleting document " +:+ document_id +:+ ": "
               +:+ "Collection " +:+ collection_name +:+ " does not exist."])
           (clock w), Ok tt)
    | Some c =>
        match collection_delete c {["document_id" := VStr document_id]} with
        | Ok c' =>
            (World (files w) (<[collection_name := c']> (chroma w)) (stdout w)
               (clock w), Ok tt)
        | Raise e =>
            (World (files w) (chroma w)
               (stdout w ++
                  ["Error deleting document " +:+ document_id +:+ ": "
                   +:+ exn_str e])
               (clock w), Ok tt)
        end
    end.
Proof.
  unfold delete_document, attempt, get_collection, on_collection. cbn.
  destruct (chroma w !! collection_name) as [c|]; cbn; [|reflexivity].
  destruct (collection_delete c _) as [c'|e]; reflexivity.
Qed.

(** C8: [delete_document] never raises. If the collection exists and the
    index deletes, the collection afterwards holds exactly the passages whose
    metadata [document_id] is not the given id; if the collection is absent or
    the index fails, one line is printed, the index is left as it is and the
    call returns normally. A second call returns normally too and changes
    nothing more. The index is assumed to delete, when it succeeds, exactly
    the passages that match the [where] filter it is handed. *)
Theorem delete_document_best_effort (collection_name document_id : string)
    (w : world) :
  (forall c where_ c',
     collection_delete c where_ = Ok c' -> c' = without_matching c where_) ->
  exists w',
    run (delete_document collection_delete collection_name document_id) w
    = (w', Ok tt) /\
    files w' = files w /\
    match chroma w !! collection_name with
    | Some c =>
        match collection_delete c {["document_id" := VStr document_id]} with
        | Ok _ =>
            chroma w'
            = <[collection_name :=
                  Collection (coll_metadata c)
                    (List.filter (fun e => negb (of_document document_id e))
                       (coll_entries c))]> (chroma w) /\
            stdout w' = stdout w
        | Raise e =>
            chroma w' = chroma w /\
            stdout w'
            = stdout w ++
                ["Error deleting document " +:+ document_id +:+ ": " +:+ exn_str e]
        end
    | None =>
        chroma w' = chroma w /\
        stdout w'
        = stdout w ++
            ["Error deleting document " +:+ document_id +:+ ": "
             +:+ "Collection " +:+ collection_name +:+ " does not exist."]
    end /\
    exists w'',
      run (delete_document collection_delete collection_name document_id) w'
      = (w'', Ok tt) /\
      chroma w'' = chroma w'.
Proof.
  intros Hdelete.
  destruct (chroma w !! collection_name) as [c|] eqn:Hc.
  - destruct (collection_delete c {["document_id" := VStr document_id]})
      as [c'|e] eqn:Hdel.
    + pose proof (Hdelete _ _ _ Hdel) as ->.
      eexists. split; [rewrite delete_document_run, Hc, Hdel; reflexivity|].
      cbn [files chroma stdout clock]. split; [reflexivity|]. split.
      * split; [|reflexivity]. unfold without_matching. do 2 f_equal.
        apply List.filter_ext. intros e. rewrite matches_where_document_id.
        reflexivity.
      * setoid_rewrite delete_document_run. cbn [files chroma stdout clock].
        rewrite lookup_insert_eq.
        destruct (collection_delete (without_matching c _) _) as [c''|e] eqn:Hdel'.
        -- eexists. split; [reflexivity|]. cbn [files chroma stdout clock].
           pose proof (Hdelete _ _ _ Hdel') as ->.
           rewrite without_matching_twice. apply insert_insert_eq.
        -- eexists. split; reflexivity.
    + eexists. split; [rewrite delete_document_run, Hc, Hdel; reflexivity|].
      cbn [files chroma stdout clock]. repeat split.
      setoid_rewrite delete_document_run. cbn [files chroma stdout clock].
      rewrite Hc, Hdel. eexists. split; reflexivity.
  - eexists. split; [rewrite delete_document_run, Hc; reflexivity|].
    cbn [files chroma stdout clock]. repeat split.
    setoid_rewrite delete_document_run. cbn [files chroma stdout clock].
    rewrite Hc. eexists. split; reflexivity.
Qed.

(** The batch the loop of [add_documents] builds, position by position. *)
Lemma prepare_from_spec (document_id : string) (chunks : list chunk) :
  forallb has_text chunks = true ->
  forall (i : nat) ids documents metadatas,
  exists ids' documents' metadatas',
    prepare_from chunks document_id i ids documents metadatas
    = Ok (ids ++ ids', documents ++ documents', metadatas ++ metadatas') /\
    length ids' = length chunks /\
    length documents' = length chunks /\
    length metadatas' = length chunks /\
    forall (k : nat) (c : chunk),
      chunks !! k = Some c ->
      ids' !! k = Some (batch_id document_id (i + k)) /\
      Some <$> documents' !! k = Some (chunk_text c) /\
      metadatas' !! k = Some (batch_metadata document_id (i + k) c).
Proof.
  induction chunks as [|c rest IH]; intros Htext i ids documents metadatas.
  - exists [], [], []. simpl. rewrite !app_nil_r.
    do 4 (split; [reflexivity|]). intros k c Hk. discriminate Hk.
  - simpl in Htext. apply andb_prop in Htext as [Hc Hrest].
    unfold has_text in Hc. simpl.
    destruct (chunk_text c) as [text|] eqn:Htextc; [|discriminate].
    destruct (IH Hrest (S i) (ids ++ [batch_id document_id i])
                (documents ++ [text])
                (metadatas ++ [batch_metadata document_id i c]))
      as (ids' & documents' & metadatas' & Hrun & Hli & Hld & Hlm & Hat).
    exists (batch_id document_id i :: ids'), (text :: documents'),
           (batch_metadata document_id i c :: metadatas').
    split.
    { unfold batch_id, batch_metadata in *. rewrite Hrun.
      rewrite <- !app_assoc. reflexivity. }
    simpl. rewrite Hli, Hld, Hlm.
    do 3 (split; [reflexivity|]).
    intros [|k] c' Hk; simpl in Hk.
    + injection Hk as <-. rewrite Nat.add_0_r, Htextc. repeat split.
    + destruct (Hat k c' Hk) as (Hi & Hd & Hm).
      rewrite Nat.add_succ_r. simpl in *. repeat split; assumption.
Qed.

(** C9: for a batch of chunks that all have a text, [add_documents] hands the
    index one id, one document and one metadata dict per chunk; at position
    [i] the id is the document id, then [_chunk_], then [i] in decimal, the
    document is the chunk's text, and the metadata is the chunk's own metadata
    with [document_id] set to the given id and [chunk_index] set to [i],
    whatever the chunk's metadata held under these two keys. Hence a [where]
    filter on this document id matches every metadata dict of the batch. *)
Theorem add_documents_batch (collection_name document_id : string)
    (chunks : list chunk) :
  forallb has_text chunks = true ->
  exists ids documents metadatas,
    prepare_batch chunks document_id = Ok (ids, documents, metadatas) /\
    (forall w,
       run (add_documents name_check collection_add collection_name chunks document_id) w
       = run (collection ← create_collection name_check collection_name false;
              on_collection collection_name
                (collection_add collection ids documents metadatas)) w) /\
    length ids = length chunks /\
    length documents = length chunks /\
    length metadatas = length chunks /\
    forall (i : nat) (c : chunk),
      chunks !! i = Some c ->
      ids !! i = Some (document_id +:+ "_chunk_" +:+ pretty i) /\
      Some <$> documents !! i = Some (chunk_text c) /\
      exists m,
        metadatas !! i = Some m /\
        m !! "document_id" = Some (VStr document_id) /\
        m !! "chunk_index" = Some (VInt (Z.of_nat i)) /\
        (forall key, key <> "document_id" -> key <> "chunk_index" ->
                     m !! key = default ∅ (chunk_metadata c) !! key) /\
        matches_where {["document_id" := VStr document_id]} m = true.
Proof.
  intros Htext.
  destruct (prepare_from_spec document_id chunks Htext 0%nat [] [] [])
    as (ids & documents & metadatas & Hrun & Hli & Hld & Hlm & Hat).
  exists ids, documents, metadatas. simpl in Hrun.
  split; [exact Hrun|]. split.
  { intros w. unfold add_documents. rewrite !run_bind.
    destruct (run (create_collection name_check collection_name false) w) as [w1 [c|e]];
      [|reflexivity].
    rewrite run_bind, run_lift. unfold prepare_batch. rewrite Hrun. reflexivity. }
  do 3 (split; [assumption|]).
  intros i c Hi. destruct (Hat i c Hi) as (Hid & Hd & Hm). simpl in Hid, Hm.
  split; [exact Hid|]. split; [exact Hd|].
  exists (batch_metadata document_id i c). split; [exact Hm|].
  unfold batch_metadata.
  assert (Hdoc : (<["chunk_index" := VInt (Z.of_nat i)]>
                    (<["document_id" := VStr document_id]>
                       (default ∅ (chunk_metadata c)))) !! "document_id"
                 = Some (VStr document_id)).
  { rewrite lookup_insert_ne by discriminate. apply lookup_insert_eq. }
  split; [exact Hdoc|]. split; [apply lookup_insert_eq|]. split.
  - intros key Hk1 Hk2. rewrite !lookup_insert_ne by congruence. reflexivity.
  - unfold matches_where. rewrite map_to_list_singleton. simpl.
    rewrite Hdoc. simpl. rewrite String.eqb_refl. reflexivity.
Qed.

End Adapter.

Lemma query_absent_collection_witness :
  run (query failing_query "documents" "what is a monad?" 5 None) upload_world
  = (upload_world, Ok (QueryResult [] [] [] [])).
Proof.
  apply (query_absent_collection failing_query). vm_compute. reflexivity.
Defined.

Lemma delete_document_best_effort_witness :
  exists w',
    run (delete_document mem_delete "documents" "d1") indexed_world = (w', Ok tt) /\
    coll_entries <$> chroma w' !! "documents"
    = Some [Entry "d2_chunk_0" (VStr "b") {["document_id" := VStr "d2"]}].
Proof.
  destruct (delete_document_best_effort mem_delete "documents" "d1" indexed_world)
    as (w' & Hrun & _ & Hcase & _).
  { intros c where_ c' Hc. injection Hc as <-. reflexivity. }
  exists w'. split; [exact Hrun|].
  change (chroma indexed_world !! "documents")
    with (Some (Collection {["hnsw:space" := VStr "cosine"]}
            [ Entry "d1_chunk_0" (VStr "a") {["document_id" := VStr "d1"]};
              Entry "d2_chunk_0" (VStr "b") {["document_id" := VStr "d2"]};
              Entry "d1_chunk_1" (VStr "c") {["document_id" := VStr "d1"]} ]))
    in Hcase.
  simpl in Hcase. destruct Hcase as [-> _].
  rewrite lookup_insert_eq. reflexivity.
Defined.

Lemma add_documents_batch_witness :
  exists ids documents metadatas,
    prepare_batch
      [Chunk (Some (VStr "a")) (Some {["document_id" := VStr "other"]});
       Chunk (Some (VStr "b")) None] "d1"
    = Ok (ids, documents, metadatas) /\
    ids = ["d1_chunk_0"; "d1_chunk_1"].
Proof.
  destruct (add_documents_batch any_name mem_add "documents" "d1"
              [Chunk (Some (VStr "a")) (Some {["document_id" := VStr "other"]});
               Chunk (Some (VStr "b")) None] eq_refl)
    as (ids & documents & metadatas & Hrun & _ & Hli & _ & _ & Hat).
  exists ids, documents, metadatas. split; [exact Hrun|].
  destruct ids as [|i0 [|i1 [|i2 ids]]]; try discriminate Hli.
  destruct (Hat 0%nat _ eq_refl) as (H0 & _).
  destruct (Hat 1%nat _ eq_refl) as (H1 & _).
  simpl in H0, H1. injection H0 as ->. injection H1 as ->. reflexivity.
Defined.

End VectorStoreFacts.

(** ** The ingestion pipeline *)

Module PDFProcessorFacts.
Import Runtime TextChunker VectorStore PDFParser PDFProcessor Fixtures RuntimeFacts.

Section Pipeline.
Variable split_text : string -> list string.
Variable fitz_open : string -> result fitz_document.
Variable name_check : string -> result unit.
Variable collection_add :
  collection -> list string -> list pyval -> list (gmap string pyval) ->
  result collection.
Variable same_file : string -> string -> bool.
Variable uploads_dir : string.

(** Reading a PDF leaves the world as it is. *)
Lemma extract_text_world (pdf_path : string) (w : world) :
  (run (extract_text fitz_open pdf_path) w).1 = w.
Proof.
  unfold extract_text. rewrite run_bind, run_get_world.
  destruct (files w !! pdf_path) as [content|]; [|reflexivity].
  rewrite run_bind, run_lift. destruct (fitz_open content); reflexivity.
Qed.

(** Whatever [extract_text] returns, its metadata has a [title] key: the
    document's title, or the empty string. *)
Lemma extract_text_title (pdf_path : string) (w w' : world) (data : pdf_data) :
  run (extract_text fitz_open pdf_path) w = (w', Ok data) ->
  exists content doc,
    files w !! pdf_path = Some content /\
    fitz_open content = Ok doc /\
    pdf_metadata data !! "title"
    = Some (dict_get_or (default ∅ (fitz_metadata doc)) "title" (VStr "")).
Proof.
  unfold extract_text. rewrite run_bind, run_get_world.
  destruct (files w !! pdf_path) as [content|]; [|discriminate].
  rewrite run_bind, run_lift. destruct (fitz_open content) as [doc|] eqn:Hdoc;
    [|discriminate].
  rewrite run_mret. intros [= _ <-]. exists content, doc.
  split; [reflexivity|]. split; [exact Hdoc|]. cbn [pdf_metadata].
  rewrite !lookup_insert_ne by discriminate. apply lookup_singleton_eq.
Qed.

(** The [title] of the document metadata is the one the parser handed over;
    the stem given as default is not used. *)
Lemma doc_metadata_title (pdf_path document_id now : string) (w w' : world)
    (data : pdf_data) :
  run (extract_text fitz_open pdf_path) w = (w', Ok data) ->
  doc_metadata_of pdf_path document_id data now !! "title"
  = pdf_metadata data !! "title".
Proof.
  intros Hrun. destruct (extract_text_title _ _ _ _ Hrun) as (c & doc & _ & _ & Ht).
  unfold doc_metadata_of. rewrite !lookup_insert_ne by discriminate.
  rewrite lookup_insert_eq. unfold dict_get_or at 1. rewrite Ht. reflexivity.
Qed.

(** Indexing does not touch the files. *)
Lemma add_documents_files (collection_name document_id : string)
    (chunks : list chunk) (w : world) :
  files (run (add_documents name_check collection_add collection_name chunks
                document_id) w).1
  = files w.
Proof.
  unfold add_documents, create_collection, get_or_create_collection.
  rewrite !run_bind, run_mret, run_bind, run_lift.
  destruct (name_check collection_name) as [[]|]; [|reflexivity].
  rewrite run_bind, run_get_world.
  destruct (chroma w !! collection_name) as [c|];
    rewrite ?run_bind; cbn [run set_collection mret Py_ret files fst].
  all: rewrite run_bind, run_lift.
  all: destruct (prepare_batch chunks document_id) as [[[ids documents] metadatas]|];
    [|reflexivity].
  all: unfold on_collection; rewrite run_bind, run_lift.
  all: destruct (collection_add _ ids documents metadatas); reflexivity.
Qed.

(** C1: indexing strictly precedes archival. When, after extraction and
    chunking have succeeded, the [add_documents] step raises, [process_pdf]
    raises that same error in the world that step left, and no file has been
    written: in particular the archived copy under the uploads directory is as
    it was before the call. *)
Theorem process_pdf_index_failure (pdf_path : string) (document_id : option string)
    (collection_name : string) (w w1 w2 : world) (data : pdf_data)
    (chunks : list chunk) (e : exn) :
  let id := default (Pathlib.stem pdf_path) document_id in
  run (print ("Processing PDF: " +:+ Pathlib.name pdf_path);;
       extract_text fitz_open pdf_path) w = (w1, Ok data) ->
  chunk_pages split_text (pdf_pages data)
    (Some (doc_metadata_of pdf_path id data (clock w1))) = Ok chunks ->
  run (add_documents name_check collection_add collection_name chunks id) w1
  = (w2, Raise e) ->
  run (process_pdf split_text fitz_open name_check collection_add same_file
         uploads_dir pdf_path document_id collection_name) w = (w2, Raise e) /\
  files w2 = files w /\
  files w2 !! destination_of uploads_dir id = files w !! destination_of uploads_dir id.
Proof.
  intros id Hextract Hchunks Hadd. subst id.
  rewrite run_bind, run_print in Hextract. cbv beta iota in Hextract.
  assert (Hfiles : files w2 = files w).
  { pose proof (add_documents_files collection_name
                  (default (Pathlib.stem pdf_path) document_id) chunks w1) as Hw2.
    rewrite Hadd in Hw2. cbn [fst] in Hw2. rewrite Hw2.
    pose proof (extract_text_world pdf_path
                  (World (files w) (chroma w)
                     (stdout w ++ ["Processing PDF: " +:+ Pathlib.name pdf_path])
                     (clock w))) as Hw1.
    rewrite Hextract in Hw1. cbn [fst] in Hw1. rewrite Hw1. reflexivity. }
  split; [|split; [exact Hfiles | rewrite Hfiles; reflexivity]].
  unfold process_pdf. cbv zeta.
  rewrite run_bind, run_print. cbv beta iota.
  rewrite run_bind, Hextract. cbv beta iota.
  rewrite run_bind. unfold datetime_now_isoformat at 1.
  rewrite run_bind, run_get_world. cbv beta iota. rewrite run_mret. cbv beta iota.
  rewrite run_bind, run_lift, Hchunks. cbv beta iota.
  rewrite run_bind, Hadd. reflexivity.
Qed.

End Pipeline.

Lemma process_pdf_index_failure_witness :
  exists w2,
    run (process_pdf config_splitter plain_reader any_name failing_add one_path
           "uploads" "uploads/temp_notes.pdf" (Some "notes") "documents")
      upload_world
    = (w2, Raise (ExternalError "index unavailable")) /\
    files w2 !! "uploads/notes.pdf" = None.
Proof.
  edestruct (process_pdf_index_failure config_splitter plain_reader any_name
               failing_add one_path "uploads" "uploads/temp_notes.pdf"
               (Some "notes") "documents"
               upload_world) as (Hrun & Hfiles & _).
  - vm_compute. reflexivity.
  - vm_compute. reflexivity.
  - vm_compute. reflexivity.
  - eexists. split; [exact Hrun|]. rewrite Hfiles. vm_compute. reflexivity.
Defined.

(** C7 fails on the code: for a PDF without a title, the [title] of the
    document metadata is the empty string, not the filename stem; the parser
    always hands a [title] key to [process_pdf], so the stem given as default
    is never used. A PDF with a title keeps it. *)
Theorem process_pdf_untitled_title :
  (fun r => res_metadata r !! "title")
    <$> (run (process_pdf config_splitter plain_reader any_name mem_add one_path
                "uploads" "uploads/temp_notes.pdf" (Some "notes") "documents")
           upload_world).2
  = Ok (Some (VStr "")) /\
  Pathlib.stem "uploads/temp_notes.pdf" = "temp_notes" /\
  (fun r => res_metadata r !! "title")
    <$> (run (process_pdf config_splitter (titled_reader "Lecture 1") any_name
                mem_add one_path "uploads" "uploads/temp_notes.pdf"
                (Some "notes") "documents")
           upload_world).2
  = Ok (Some (VStr "Lecture 1")).
Proof.
  repeat split; vm_compute; reflexivity.
Qed.

End PDFProcessorFacts.

(** ** The RAG orchestrator *)

Module RAGServiceFacts.
Import PDFParser RAGService Citations Fixtures.

Lemma append_empty_r (s : string) : s +:+ "" = s.
Proof.
  induction s as [|a s IH]; [reflexivity|].
  change (String a (s +:+ "") = String a s). rewrite IH. reflexivity.
Qed.

Lemma concat_cons (x : string) (xs : list string) :
  String.concat "" (x :: xs) = x +:+ String.concat "" xs.
Proof. destruct xs; [symmetry; apply append_empty_r | reflexivity]. Qed.

(** Leaving out the empty increments does not change what the increments
    add up to. *)
Lemma concat_skip_empty (increments : list string) :
  String.concat ""
    (List.filter (fun content => negb (String.eqb content "")) increments)
  = String.concat "" increments.
Proof.
  induction increments as [|x xs IH]; [reflexivity|].
  cbn [List.filter]. destruct (String.eqb_spec x "") as [->|Hx]; cbn [negb].
  - rewrite IH, concat_cons. reflexivity.
  - rewrite !concat_cons, IH. reflexivity.
Qed.

Lemma filter_filter_bool {A : Type} (f g : A -> bool) (l : list A) :
  List.filter f (List.filter g l) = List.filter (fun x => g x && f x) l.
Proof.
  induction l as [|x l IH]; [reflexivity|].
  cbn [List.filter]. destruct (g x); cbn [andb List.filter]; [|exact IH].
  destruct (f x); rewrite IH; reflexivity.
Qed.

(** The loop of the code computes the citation list of the specification. *)
Lemma extract_sources_from_spec (chunks : list (gmap string pyval)) :
  forall cited seen,
    extract_sources_from chunks cited seen
    = cited ++ (source_of <$> keep_first (List.filter (eligible seen) chunks)).
Proof.
  induction chunks as [|c rest IH]; intros cited seen.
  - simpl. rewrite keep_first_equation_1. simpl. rewrite app_nil_r. reflexivity.
  - cbn [extract_sources_from List.filter]. unfold eligible at 1. fold (has_page c).
    rewrite andb_comm.
    destruct (has_page c && negb (key_in (source_key c) seen)).
    + rewrite IH, keep_first_equation_2, filter_filter_bool.
      rewrite fmap_cons, <- app_assoc. cbn [app]. do 4 f_equal.
      apply List.filter_ext. intros c'.
      unfold eligible, key_in, same_key. cbn [existsb].
      rewrite negb_orb, <- andb_assoc. f_equal. apply andb_comm.
    + apply IH.
Qed.

Lemma extract_sources_spec (chunks : list (gmap string pyval)) :
  extract_sources chunks = source_of <$> cited_chunks chunks.
Proof.
  unfold extract_sources, cited_chunks. rewrite extract_sources_from_spec.
  cbn [app]. do 2 f_equal. apply List.filter_ext. intros c.
  unfold eligible. simpl. apply andb_true_r.
Qed.

Section Service.
Variable float_repr : float -> string.
Variable llm_invoke : list message -> result string.
Variable llm_stream : list message -> list string * option exn.

(** Every chunk that has a [text] key is formatted; nothing is raised. *)
Lemma format_parts_total (chunks : list (gmap string pyval)) :
  Forall (fun c => is_Some (c !! "text")) chunks ->
  forall i parts, exists out, format_parts float_repr chunks i parts = Ok out.
Proof.
  induction 1 as [|c rest [text Htext] _ IH]; intros i parts.
  - eexists. reflexivity.
  - cbn [format_parts]. unfold subscript. rewrite Htext. apply IH.
Qed.

Lemma format_context_total (chunks : list (gmap string pyval)) :
  Forall (fun c => is_Some (c !! "text")) chunks ->
  exists context, format_context float_repr chunks = Ok context.
Proof.
  intros Htext. destruct chunks as [|c rest]; [eexists; reflexivity|].
  unfold format_context.
  destruct (format_parts_total (c :: rest) Htext 1%nat []) as [parts ->].
  eexists. reflexivity.
Qed.

(** The header of a chunk that lacks both keys. *)
Lemma format_context_missing_keys (text : string) :
  format_context float_repr [{["text" := VStr text]}]
  = Ok ("[Source 1 - Unknown, Page N/A]" +:+ nl +:+ text).
Proof. reflexivity. Qed.

(** C3: with a deterministic generation capability, the stream consumed to
    exhaustion is a run of [content] elements followed by one [sources]
    element that carries the sources list and the context count of the
    blocking answer, and the contents add up to the blocking answer; when the
    blocking call raises, the stream raises the same error before it yields
    anything. *)
Theorem stream_agrees_with_blocking (query : string)
    (context_chunks : list (gmap string pyval))
    (conversation_history : option (list (gmap string pyval))) :
  deterministic_llm llm_invoke llm_stream ->
  match generate_answer float_repr llm_invoke query context_chunks
          conversation_history with
  | Ok r =>
      exists contents,
        generate_answer_stream float_repr llm_stream query context_chunks
          conversation_history
        = ((content_event <$> contents)
             ++ [sources_event (sources r) (context_used r)], None) /\
        String.concat "" contents = answer r
  | Raise e =>
      generate_answer_stream float_repr llm_stream query context_chunks
        conversation_history
      = ([], Some e)
  end.
Proof.
  intros Hllm. unfold generate_answer, generate_answer_stream.
  destruct (build_messages float_repr query context_chunks conversation_history)
    as [messages|e]; [|reflexivity].
  destruct (Hllm messages) as [Hend Hanswer].
  cbn [mbind result_bind]. rewrite Hanswer. cbn [mbind result_bind].
  destruct (llm_stream messages) as [increments failure].
  cbn [fst snd] in *. subst failure.
  eexists. split; [reflexivity|]. apply concat_skip_empty.
Qed.

End Service.

Lemma stub_is_deterministic : deterministic_llm stub_invoke stub_stream.
Proof. intros messages. split; reflexivity. Qed.

Lemma stream_agrees_with_blocking_witness :
  exists contents,
    generate_answer_stream stub_repr stub_stream "Why?" dedup_chunks None
    = ((content_event <$> contents)
         ++ [sources_event
               [ Source (VStr "doc1") (VStr "a.pdf") (VInt 1) (VFloat 0.9%float);
                 Source (VStr "doc1") (VStr "a.pdf") (VInt 2) (VFloat 0.6%float) ]
               3], None) /\
    String.concat "" contents = "Page 1 says so.".
Proof.
  pose proof (stream_agrees_with_blocking stub_repr stub_invoke stub_stream
                "Why?" dedup_chunks None stub_is_deterministic) as H.
  exact H.
Defined.

(** C4, as amended: the sources list of [generate_answer] holds, in retrieval
    order, the first occurrence of each distinct [(document_id, page_number)]
    pair (compared as Python compares tuples) among the chunks whose page
    number is truthy, that is present and neither [None], zero, [False] nor
    the empty string; no other chunk contributes an entry. For the three
    chunks (doc1, page 1), (doc1, page 1), (doc1, page 2) the list is
    (doc1, page 1), (doc1, page 2). *)
Theorem generate_answer_sources_first_occurrences :
  (forall float_repr llm_invoke query context_chunks conversation_history,
     generate_answer float_repr llm_invoke query context_chunks
       conversation_history
     = (messages ← build_messages float_repr query context_chunks
                     conversation_history;
        response ← llm_invoke messages;
        Ok (AnswerRecord response (source_of <$> cited_chunks context_chunks)
              (Z.of_nat (length context_chunks))))) /\
  generate_answer stub_repr stub_invoke "Why?" dedup_chunks None
  = Ok (AnswerRecord "Page 1 says so."
          [ Source (VStr "doc1") (VStr "a.pdf") (VInt 1) (VFloat 0.9%float);
            Source (VStr "doc1") (VStr "a.pdf") (VInt 2) (VFloat 0.6%float) ]
          3).
Proof.
  split.
  - intros float_repr llm_invoke query context_chunks conversation_history.
    unfold generate_answer. rewrite extract_sources_spec. reflexivity.
  - vm_compute. reflexivity.
Qed.

(** C4, as stated, fails: a chunk whose page number is present and is 0 gets
    no entry in the sources list. *)
Lemma generate_answer_drops_page_zero :
  page_zero_chunk !! "page_number" = Some (VInt 0) /\
  sources <$> generate_answer stub_repr stub_invoke "Why?" [page_zero_chunk] None
  = Ok [].
Proof. split; vm_compute; reflexivity. Qed.

(** C10 fails on the code: a chunk whose [page_number] and [filename] are
    [None], as [retrieve_context] builds it from a passage stored without
    them, is rendered with the header [Source 1 - None, Page None]; only a
    chunk that lacks the keys gets [Unknown] and [N/A]. *)
Theorem format_context_none_values :
  unpaged_chunk !! "page_number" = Some VNone /\
  unpaged_chunk !! "filename" = Some VNone /\
  format_context stub_repr [unpaged_chunk]
  = Ok ("[Source 1 - None, Page None]" +:+ nl +:+ "t") /\
  format_context stub_repr [bare_chunk]
  = Ok ("[Source 1 - Unknown, Page N/A]" +:+ nl +:+ "t").
Proof. repeat split; vm_compute; reflexivity. Qed.

End RAGServiceFacts.

(** ** More on the chunker *)

Module ChunkerMoreFacts.
Import TextChunker ChunkText VectorStore Invariants Shapes Fixtures.
Import ChunkerFacts VectorStoreFacts.

Section Loops.
Variable split_text : string -> list string.

Lemma emit_chunks_texts (chunks : list string) (pn : pyval)
    (dm : option (gmap string pyval)) :
  default ∅ dm !! "page_number" = None ->
  forall all_chunks chunk_id,
    text_and_page <$> (emit_chunks chunks pn dm all_chunks chunk_id).1
    = (text_and_page <$> all_chunks)
        ++ ((fun piece => (Some (VStr piece), Some pn)) <$> chunks).
Proof.
  intros Hfree. induction chunks as [|piece rest IH]; intros all_chunks chunk_id.
  - simpl. rewrite app_nil_r. reflexivity.
  - simpl. rewrite IH, fmap_app, <- app_assoc. do 2 f_equal.
    unfold text_and_page. simpl.
    rewrite lookup_union_r by exact Hfree.
    rewrite lookup_insert_ne by discriminate. rewrite lookup_singleton_eq.
    reflexivity.
Qed.

Lemma chunk_pages_from_texts (pages : list (gmap string pyval))
    (dm : option (gmap string pyval)) :
  default ∅ dm !! "page_number" = None ->
  forall all_chunks chunk_id out,
    chunk_pages_from split_text pages dm all_chunks chunk_id = Ok out ->
    text_and_page <$> out
    = (text_and_page <$> all_chunks) ++ flat_map (page_pieces split_text) pages.
Proof.
  intros Hfree. induction pages as [|page rest IH]; intros all_chunks chunk_id out Hrun.
  - simpl in Hrun. injection Hrun as <-. simpl. rewrite app_nil_r. reflexivity.
  - simpl in Hrun. unfold subscript in Hrun. cbn [flat_map]. unfold page_pieces at 1.
    destruct (page !! "text") as [page_text|]; simpl in Hrun; [|discriminate].
    destruct (page !! "page_number") as [pn|]; simpl in Hrun; [|discriminate].
    destruct page_text as [| | | |s]; simpl in Hrun; try discriminate.
    pose proof (emit_chunks_texts (split_text s) pn dm Hfree all_chunks chunk_id)
      as Hemit.
    destruct (emit_chunks (split_text s) pn dm all_chunks chunk_id) as [all' id'].
    simpl in Hemit. rewrite (IH _ _ _ Hrun), Hemit, <- app_assoc. reflexivity.
Qed.

(** X1: page provenance. When the document metadata has no [page_number] key,
    the chunks [chunk_pages] returns are, in order, the pieces of the first
    page, then those of the second, and so on, each with the text of the piece
    and the page number of its page. *)
Theorem chunk_pages_keeps_page_numbers (pages : list (gmap string pyval))
    (doc_metadata : option (gmap string pyval)) (out : list chunk) :
  default ∅ doc_metadata !! "page_number" = None ->
  chunk_pages split_text pages doc_metadata = Ok out ->
  text_and_page <$> out = flat_map (page_pieces split_text) pages.
Proof.
  intros Hfree Hrun.
  apply (chunk_pages_from_texts pages doc_metadata Hfree [] 0 out Hrun).
Qed.

Lemma emit_chunks_built (chunks : list string) (pn : pyval)
    (dm : option (gmap string pyval)) :
  forall all_chunks chunk_id,
    Forall (built_chunk (default ∅ dm)) all_chunks ->
    Forall (built_chunk (default ∅ dm))
      (emit_chunks chunks pn dm all_chunks chunk_id).1.
Proof.
  induction chunks as [|piece rest IH]; intros all_chunks chunk_id Hall; [exact Hall|].
  simpl. apply IH. apply Forall_app. split; [exact Hall|].
  apply Forall_cons. split; [|apply Forall_nil; exact I].
  eexists _, _. split; [reflexivity|]. split.
  - intros k v Hk. apply lookup_union_Some_l. exact Hk.
  - split; apply lookup_union_is_Some; right.
    + rewrite lookup_insert_ne by discriminate. rewrite lookup_singleton_eq. eauto.
    + rewrite lookup_insert_eq. eauto.
Qed.

Lemma chunk_pages_from_built (pages : list (gmap string pyval))
    (dm : option (gmap string pyval)) :
  forall all_chunks chunk_id out,
    Forall (built_chunk (default ∅ dm)) all_chunks ->
    chunk_pages_from split_text pages dm all_chunks chunk_id = Ok out ->
    Forall (built_chunk (default ∅ dm)) out.
Proof.
  induction pages as [|page rest IH]; intros all_chunks chunk_id out Hall Hrun.
  - simpl in Hrun. injection Hrun as <-. exact Hall.
  - simpl in Hrun.
    destruct (subscript page "text") as [page_text|]; simpl in Hrun; [|discriminate].
    destruct (subscript page "page_number") as [pn|]; simpl in Hrun; [|discriminate].
    destruct (split_page_text split_text page_text) as [chunks|]; simpl in Hrun;
      [|discriminate].
    pose proof (emit_chunks_built chunks pn dm all_chunks chunk_id Hall) as Hemit.
    destruct (emit_chunks chunks pn dm all_chunks chunk_id) as [all' id'].
    eapply IH; eassumption.
Qed.

(** X2: metadata propagation. Every chunk [chunk_pages] returns has a text
    and a metadata dict that holds every entry of the document metadata
    unchanged, together with a [page_number] and a [chunk_id]. *)
Theorem chunk_pages_propagates_metadata (pages : list (gmap string pyval))
    (doc_metadata : option (gmap string pyval)) (out : list chunk) :
  chunk_pages split_text pages doc_metadata = Ok out ->
  Forall (built_chunk (default ∅ doc_metadata)) out.
Proof.
  intros Hrun. eapply chunk_pages_from_built; [|exact Hrun].
  apply Forall_nil. exact I.
Qed.

(** When [chunk_pages] returns, every page was well formed. *)
Lemma chunk_pages_from_well_formed (pages : list (gmap string pyval))
    (dm : option (gmap string pyval)) :
  forall all_chunks chunk_id out,
    chunk_pages_from split_text pages dm all_chunks chunk_id = Ok out ->
    forallb well_formed_page pages = true.
Proof.
  induction pages as [|page rest IH]; intros all_chunks chunk_id out Hrun.
  - reflexivity.
  - simpl in Hrun. unfold subscript in Hrun. simpl. unfold well_formed_page at 1.
    destruct (page !! "text") as [page_text|]; simpl in Hrun; [|discriminate].
    destruct (page !! "page_number") as [pn|]; simpl in Hrun; [|discriminate].
    destruct page_text as [| | | |s]; simpl in Hrun; try discriminate.
    destruct (emit_chunks (split_text s) pn dm all_chunks chunk_id) as [all' id'].
    simpl. eapply IH. exact Hrun.
Qed.

(** X3: [chunk_pages] returns exactly when every page has a [text] key that
    holds a string and a [page_number] key; otherwise it raises and returns
    no chunk at all. *)
Theorem chunk_pages_returns_iff (pages : list (gmap string pyval))
    (doc_metadata : option (gmap string pyval)) :
  (exists out, chunk_pages split_text pages doc_metadata = Ok out) <->
  forallb well_formed_page pages = true.
Proof.
  split.
  - intros [out Hrun]. eapply chunk_pages_from_well_formed. exact Hrun.
  - intros Hwf. apply chunk_pages_from_returns. exact Hwf.
Qed.

Lemma built_chunk_has_text (dm : gmap string pyval) (chunks : list chunk) :
  Forall (built_chunk dm) chunks -> forallb has_text chunks = true.
Proof.
  induction 1 as [|c rest (piece & md & -> & _) _ IH]; [reflexivity|].
  simpl. exact IH.
Qed.

(** X5: what the chunker returns can always be indexed. For chunks returned
    by [chunk_pages] on document metadata without a [chunk_id] key, the batch
    of [add_documents] is built without error, and the metadata at position
    [i] has [chunk_index] and [chunk_id] both equal to [i] and [document_id]
    equal to the given id. *)
Theorem chunk_pages_output_indexable (pages : list (gmap string pyval))
    (doc_metadata : option (gmap string pyval)) (document_id : string)
    (chunks : list chunk) :
  default ∅ doc_metadata !! "chunk_id" = None ->
  chunk_pages split_text pages doc_metadata = Ok chunks ->
  exists ids documents metadatas,
    prepare_batch chunks document_id = Ok (ids, documents, metadatas) /\
    length metadatas = length chunks /\
    forall (i : nat) (m : gmap string pyval),
      metadatas !! i = Some m ->
      m !! "chunk_index" = Some (VInt (Z.of_nat i)) /\
      m !! "chunk_id" = Some (VInt (Z.of_nat i)) /\
      m !! "document_id" = Some (VStr document_id).
Proof.
  intros Hfree Hrun.
  assert (Hbuilt : Forall (built_chunk (default ∅ doc_metadata)) chunks).
  { eapply chunk_pages_from_built; [|exact Hrun]. apply Forall_nil. exact I. }
  assert (Hids : chunk_id_of <$> chunks = counter_values (length chunks)).
  { eapply chunk_pages_from_numbered; [exact Hfree| |exact Hrun]. split; reflexivity. }
  destruct (prepare_from_spec document_id chunks
              (built_chunk_has_text _ _ Hbuilt) 0%nat [] [] [])
    as (ids & documents & metadatas & Hbatch & _ & _ & Hlen & Hat).
  exists ids, documents, metadatas. split; [exact Hbatch|]. split; [exact Hlen|].
  intros i m Hm.
  assert (Hi : (i < length chunks)%nat).
  { rewrite <- Hlen. eapply lookup_lt_Some. exact Hm. }
  destruct (lookup_lt_is_Some_2 chunks i Hi) as [c Hc].
  destruct (Hat i c Hc) as (_ & _ & Hmeta). simpl in Hmeta.
  rewrite Hm in Hmeta. injection Hmeta as ->. unfold batch_metadata.
  split; [apply lookup_insert_eq|]. split.
  - rewrite !lookup_insert_ne by discriminate.
    assert (Hc' : (chunk_id_of <$> chunks) !! i = Some (chunk_id_of c)).
    { rewrite list_lookup_fmap, Hc. reflexivity. }
    rewrite Hids in Hc'. unfold counter_values in Hc'.
    rewrite list_lookup_fmap, lookup_seq_lt in Hc' by exact Hi.
    simpl in Hc'. injection Hc' as Hc'. unfold chunk_id_of in Hc'.
    destruct (chunk_metadata c) as [md|]; [|discriminate]. simpl in *.
    symmetry. exact Hc'.
  - rewrite lookup_insert_ne by discriminate. apply lookup_insert_eq.
Qed.

(** The loop of [chunk_text]. *)
Lemma chunk_text_from_spec (chunks : list string) (md : option (gmap string pyval)) :
  forall i result,
    chunk_text_from chunks i md result
    = result
        ++ imap (fun k piece => TextChunk piece (i + Z.of_nat k) (default ∅ md))
             chunks.
Proof.
  induction chunks as [|piece rest IH]; intros i result.
  - simpl. rewrite app_nil_r. reflexivity.
  - simpl. rewrite IH, <- app_assoc. simpl. rewrite Z.add_0_r. do 2 f_equal.
    apply imap_ext. intros k x _. simpl. f_equal. lia.
Qed.

(** X4: [chunk_text] returns one dict per piece of the splitter, in order; the
    dict at position [i] has the piece as text, [chunk_index] equal to [i],
    and the given metadata (the empty dict when none is given). *)
Theorem chunk_text_indexes_pieces (text : string)
    (metadata : option (gmap string pyval)) :
  chunk_text split_text text metadata
  = imap (fun i piece => TextChunk piece (Z.of_nat i) (default ∅ metadata))
      (split_text text).
Proof.
  unfold chunk_text. rewrite chunk_text_from_spec. reflexivity.
Qed.

End Loops.

Lemma chunk_pages_keeps_page_numbers_witness :
  exists out,
    chunk_pages small_splitter [page 1 "abcdefghij"; page 2 ""; page 3 "xy"]
      (Some {["document_id" := VStr "d"]}) = Ok out /\
    text_and_page <$> out
    = [ (Some (VStr "abcd"), Some (VInt 1)); (Some (VStr "efgh"), Some (VInt 1));
        (Some (VStr "ij"), Some (VInt 1)); (Some (VStr "xy"), Some (VInt 3)) ].
Proof.
  eexists. split; [vm_compute; reflexivity|].
  rewrite (chunk_pages_keeps_page_numbers small_splitter
             [page 1 "abcdefghij"; page 2 ""; page 3 "xy"]
             (Some {["document_id" := VStr "d"]})).
  - vm_compute. reflexivity.
  - vm_compute. reflexivity.
  - vm_compute. reflexivity.
Defined.

Lemma chunk_pages_propagates_metadata_witness :
  exists out,
    chunk_pages small_splitter [page 1 "abcdefghij"; page 3 "xy"]
      (Some {["filename" := VStr "a.pdf"]}) = Ok out /\
    Forall (built_chunk {["filename" := VStr "a.pdf"]}) out.
Proof.
  assert (exists out,
            chunk_pages small_splitter [page 1 "abcdefghij"; page 3 "xy"]
              (Some {["filename" := VStr "a.pdf"]}) = Ok out) as [out Hout].
  { eexists. vm_compute. reflexivity. }
  exists out. split; [exact Hout|].
  exact (chunk_pages_propagates_metadata small_splitter
           [page 1 "abcdefghij"; page 3 "xy"]
           (Some {["filename" := VStr "a.pdf"]}) out Hout).
Defined.

Lemma chunk_pages_output_indexable_witness :
  exists chunks ids documents metadatas,
    chunk_pages small_splitter [page 1 "abcdefghij"; page 3 "xy"] None = Ok chunks /\
    prepare_batch chunks "d1" = Ok (ids, documents, metadatas) /\
    length metadatas = length chunks.
Proof.
  eexists.
  edestruct (chunk_pages_output_indexable small_splitter
               [page 1 "abcdefghij"; page 3 "xy"] None "d1")
    as (ids & documents & metadatas & Hbatch & Hlen & _).
  - vm_compute. reflexivity.
  - vm_compute. reflexivity.
  - exists ids, documents, metadatas. split; [reflexivity|]. split; assumption.
Defined.

End ChunkerMoreFacts.

(** ** More on the vector index adapter *)

Module VectorStoreMoreFacts.
Import Runtime TextChunker VectorStore VectorStoreOps Invariants Shapes Fixtures.
Import RuntimeFacts VectorStoreFacts.

Section Adapter.
Variable name_check : string -> result unit.
Variable collection_add :
  collection -> list string -> list pyval -> list (gmap string pyval) ->
  result collection.
Variable collection_count : collection -> result Z.

(** What one call of [create_collection] does. *)
Lemma create_collection_run (collection_name : string) (replace : bool)
    (w : world) :
  run (create_collection name_check collection_name replace) w
  = match name_check collection_name with
    | Ok _ =>
        let c := if replace then empty_cosine
                 else default empty_cosine (chroma w !! collection_name) in
        (World (files w) (<[collection_name := c]> (chroma w)) (stdout w)
           (clock w), Ok c)
    | Raise e =>
        (World (files w)
           (if replace then delete collection_name (chroma w) else chroma w)
           (stdout w) (clock w), Raise e)
    end.
Proof.
  unfold create_collection, get_or_create_collection, delete_collection,
    get_collection, attempt, drop_collection, set_collection, lift.
  destruct replace; cbn.
  - destruct (chroma w !! collection_name) as [c|] eqn:Hc; cbn.
    + destruct (name_check collection_name) as [[]|e]; cbn; [|reflexivity].
      rewrite lookup_delete_eq. cbn. rewrite insert_delete_eq. reflexivity.
    + destruct (name_check collection_name) as [[]|e]; cbn.
      * rewrite Hc. reflexivity.
      * rewrite delete_id by exact Hc. destruct w; reflexivity.
  - destruct (name_check collection_name) as [[]|e]; cbn;
      [|destruct w; reflexivity].
    destruct (chroma w !! collection_name) as [c|] eqn:Hc; cbn; [|reflexivity].
    rewrite insert_id by exact Hc. destruct w; reflexivity.
Qed.

(** X6: [create_collection] raises exactly when the index refuses the name,
    with the index's error; under [replace] a failing delete is swallowed,
    and a collection that could be deleted is gone by then. When the index
    accepts the name, [create_collection] returns the collection the store
    holds under the name afterwards. Without [replace] that is the collection
    that was there, or a new empty one configured for cosine distance; with
    [replace] it is always a new empty one, whether or not a collection was
    there. No other collection changes, and creating again without [replace]
    changes nothing and returns the same collection. *)
Theorem create_collection_outcome (collection_name : string) (replace : bool)
    (w : world) :
  match name_check collection_name with
  | Ok _ =>
      let c := if replace then empty_cosine
               else default empty_cosine (chroma w !! collection_name) in
      let w' := World (files w) (<[collection_name := c]> (chroma w)) (stdout w)
                  (clock w) in
      run (create_collection name_check collection_name replace) w = (w', Ok c) /\
      run (create_collection name_check collection_name false) w' = (w', Ok c)
  | Raise e =>
      exists w',
        run (create_collection name_check collection_name replace) w
        = (w', Raise e) /\
        files w' = files w /\
        stdout w' = stdout w /\
        chroma w'
        = if replace then delete collection_name (chroma w) else chroma w
  end.
Proof.
  pose proof (create_collection_run collection_name replace w) as Hrun.
  destruct (name_check collection_name) as [[]|e] eqn:Hname.
  - intros c w'. split; [exact Hrun|].
    rewrite create_collection_run, Hname. subst w'. cbn [chroma files stdout clock].
    cbv zeta. rewrite lookup_insert_eq, insert_insert_eq. reflexivity.
  - eexists. split; [exact Hrun|]. repeat split.
Qed.

(** The index accepts the collection name [documents] and refuses [x8],
    which is too short: nothing is created there. *)
Example create_collection_names :
  (run (create_collection sized_name "documents" false) upload_world).2
  = Ok empty_cosine /\
  exists e,
    run (create_collection sized_name "x8" false) upload_world
    = (upload_world, Raise e).
Proof.
  split; [vm_compute; reflexivity|]. eexists. vm_compute. reflexivity.
Qed.

(** X7: [get_collection_count] never raises and leaves the world as it is:
    it returns what the index counts, and 0 when the collection does not
    exist or counting fails. *)
Theorem get_collection_count_total (collection_name : string) (w : world) :
  run (get_collection_count collection_count collection_name) w
  = (w, Ok match chroma w !! collection_name with
           | Some c => match collection_count c with Ok n => n | Raise _ => 0 end
           | None => 0
           end).
Proof.
  unfold get_collection_count, attempt, get_collection. cbn.
  destruct (chroma w !! collection_name) as [c|]; cbn; [|reflexivity].
  destruct (collection_count c); reflexivity.
Qed.

(** X8: when a chunk of the batch has no [text] key, [add_documents] on a
    collection name the index accepts raises [KeyError] and hands nothing to
    the index; the collection has been created by then if it did not exist.
    On a name the index refuses it raises the index's error before the loop,
    and the world is as it was. *)
Theorem add_documents_missing_text (collection_name document_id : string)
    (chunks : list chunk) (w : world) :
  forallb has_text chunks = false ->
  run (add_documents name_check collection_add collection_name chunks document_id) w
  = match name_check collection_name with
    | Ok _ =>
        (World (files w)
           (<[collection_name :=
                default empty_cosine (chroma w !! collection_name)]> (chroma w))
           (stdout w) (clock w),
         Raise (KeyError "text"))
    | Raise e => (w, Raise e)
    end.
Proof.
  intros Htext.
  assert (Hbatch : forall i ids documents metadatas,
             prepare_from chunks document_id i ids documents metadatas
             = Raise (KeyError "text")).
  { induction chunks as [|c rest IH]; [discriminate|]. intros i ids documents metadatas.
    simpl in Htext. unfold has_text in Htext at 1. simpl.
    destruct (chunk_text c); [|reflexivity]. apply IH. exact Htext. }
  unfold add_documents. rewrite run_bind.
  rewrite (create_collection_run collection_name false w).
  destruct (name_check collection_name) as [[]|e]; cbv zeta beta iota.
  - rewrite run_bind, run_lift. unfold prepare_batch. rewrite Hbatch. reflexivity.
  - destruct w; reflexivity.
Qed.

End Adapter.

Lemma add_documents_missing_text_witness :
  run (add_documents any_name mem_add "documents" [Chunk None None] "d1") upload_world
  = (World (files upload_world) {["documents" := empty_cosine]} []
       "2024-01-01T00:00:00",
     Raise (KeyError "text")) /\
  exists e,
    run (add_documents sized_name mem_add "x8" [Chunk None None] "d1") upload_world
    = (upload_world, Raise e) /\
    e <> KeyError "text".
Proof.
  split.
  - rewrite (add_documents_missing_text any_name mem_add "documents" "d1"
               [Chunk None None] upload_world eq_refl).
    reflexivity.
  - eexists. split.
    + rewrite (add_documents_missing_text sized_name mem_add "x8" "d1"
                 [Chunk None None] upload_world eq_refl).
      reflexivity.
    + discriminate.
Defined.

End VectorStoreMoreFacts.

(** ** More on the parser and the ingestion pipeline *)

Module PipelineMoreFacts.
Import Runtime TextChunker VectorStore PDFParser PDFProcessor PDFProcessorOps.
Import Invariants Shapes Fixtures MoreFixtures.
Import RuntimeFacts ChunkerFacts VectorStoreFacts PDFProcessorFacts.

Lemma read_pages_spec (texts : list string) :
  forall (n : nat) pages,
    read_pages texts (Z.of_nat n) pages
    = pages ++ imap (fun k text => page_at (n + k) text) texts.
Proof.
  induction texts as [|text rest IH]; intros n pages.
  - simpl. rewrite app_nil_r. reflexivity.
  - simpl. replace (Z.of_nat n + 1) with (Z.of_nat (S n)) by lia.
    rewrite IH, <- app_assoc. simpl. f_equal. f_equal.
    + unfold page_at. rewrite Nat.add_0_r. do 3 f_equal. lia.
    + apply imap_ext. intros k x _. simpl. f_equal. lia.
Qed.

Lemma page_at_well_formed (i : nat) (text : string) :
  well_formed_page (page_at i text) = true.
Proof.
  unfold well_formed_page, page_at. rewrite lookup_insert_eq.
  rewrite lookup_insert_ne by discriminate. rewrite lookup_singleton_eq.
  reflexivity.
Qed.

Lemma imap_page_at_well_formed (texts : list string) :
  forall n,
    forallb well_formed_page (imap (fun k text => page_at (n + k) text) texts) = true.
Proof.
  induction texts as [|text rest IH]; intros n; [reflexivity|].
  cbn [imap forallb]. rewrite page_at_well_formed. cbn [andb].
  rewrite <- (IH (S n)). f_equal. apply imap_ext. intros k x _. simpl.
  f_equal. lia.
Qed.

Section Pipeline.
Variable split_text : string -> list string.
Variable fitz_open : string -> result fitz_document.
Variable name_check : string -> result unit.
Variable collection_add :
  collection -> list string -> list pyval -> list (gmap string pyval) ->
  result collection.
Variable same_file : string -> string -> bool.
Variable collection_delete :
  collection -> gmap string pyval -> result collection.
Variable uploads_dir : string.

(** What [extract_text] returns for a file the reader can open. *)
Lemma extract_text_run (pdf_path content : string) (doc : fitz_document)
    (w : world) :
  files w !! pdf_path = Some content ->
  fitz_open content = Ok doc ->
  exists data,
    run (extract_text fitz_open pdf_path) w = (w, Ok data) /\
    pdf_pages data = imap page_at (fitz_pages doc) /\
    pdf_num_pages data = Z.of_nat (length (fitz_pages doc)) /\
    pdf_text data = String.concat (nl +:+ nl) (fitz_pages doc) /\
    dom (pdf_metadata data)
    = ({["title"; "author"; "subject"; "creator"]} : gset string).
Proof.
  intros Hfile Hdoc. eexists. split.
  { unfold extract_text. rewrite run_bind, run_get_world. cbv beta iota.
    rewrite Hfile, run_bind, run_lift, Hdoc. cbv beta iota. rewrite run_mret.
    reflexivity. }
  cbn [pdf_pages pdf_num_pages pdf_text pdf_metadata].
  change (read_pages (fitz_pages doc) 0 [])
    with (read_pages (fitz_pages doc) (Z.of_nat 0) []).
  rewrite (read_pages_spec (fitz_pages doc) 0 []). cbn [app].
  split; [reflexivity|]. split; [rewrite length_imap; reflexivity|].
  split; [reflexivity|].
  rewrite !dom_insert_L, dom_singleton_L. set_solver.
Qed.

(** X9: for a file that exists and that the reader opens, [extract_text]
    leaves the world as it is and returns one page dict per page of the
    document, in order, numbered 1, 2, 3, ..., each with the text of its page;
    [num_pages] is their number, and the metadata has exactly the keys
    [title], [author], [subject] and [creator]. Such pages are all accepted
    by [chunk_pages]. *)
Theorem extract_text_pages_numbered (pdf_path content : string)
    (doc : fitz_document) (w : world) :
  files w !! pdf_path = Some content ->
  fitz_open content = Ok doc ->
  exists data,
    run (extract_text fitz_open pdf_path) w = (w, Ok data) /\
    pdf_pages data = imap page_at (fitz_pages doc) /\
    pdf_num_pages data = Z.of_nat (length (fitz_pages doc)) /\
    dom (pdf_metadata data)
    = ({["title"; "author"; "subject"; "creator"]} : gset string) /\
    forallb well_formed_page (pdf_pages data) = true.
Proof.
  intros Hfile Hdoc.
  destruct (extract_text_run pdf_path content doc w Hfile Hdoc)
    as (data & Hrun & Hpages & Hnum & _ & Hdom).
  exists data. repeat (split; [assumption|]).
  rewrite Hpages. apply (imap_page_at_well_formed (fitz_pages doc) 0).
Qed.

(** Indexing prints nothing. *)
Lemma add_documents_stdout (collection_name document_id : string)
    (chunks : list chunk) (w : world) :
  stdout (run (add_documents name_check collection_add collection_name chunks
                 document_id) w).1
  = stdout w.
Proof.
  unfold add_documents. rewrite run_bind.
  rewrite (VectorStoreMoreFacts.create_collection_run name_check
             collection_name false).
  destruct (name_check collection_name) as [[]|e]; [|reflexivity].
  cbv zeta beta iota. rewrite run_bind, run_lift.
  destruct (prepare_batch chunks document_id) as [[[ids documents] metadatas]|];
    [|reflexivity].
  unfold on_collection. rewrite run_bind, run_lift.
  destruct (collection_add _ ids documents metadatas); reflexivity.
Qed.

(** [extract_text] only returns for a file that exists. *)
Lemma extract_text_file_exists (pdf_path : string) (w w' : world) (data : pdf_data) :
  run (extract_text fitz_open pdf_path) w = (w', Ok data) ->
  exists content, files w !! pdf_path = Some content.
Proof.
  intros Hrun. destruct (extract_text_title _ _ _ _ _ Hrun) as (content & _ & H & _).
  exists content. exact H.
Qed.

(** [process_pdf], step by step. *)
Lemma process_pdf_run (pdf_path : string) (document_id : option string)
    (collection_name : string) (w : world) :
  let id := default (Pathlib.stem pdf_path) document_id in
  run (process_pdf split_text fitz_open name_check collection_add same_file
         uploads_dir pdf_path document_id collection_name) w
  = match run (extract_text fitz_open pdf_path) (started pdf_path w) with
    | (w1, Raise e) => (w1, Raise e)
    | (w1, Ok data) =>
        let doc_metadata := doc_metadata_of pdf_path id data (clock w1) in
        match chunk_pages split_text (pdf_pages data) (Some doc_metadata) with
        | Raise e => (w1, Raise e)
        | Ok chunks =>
            match run (add_documents name_check collection_add collection_name
                         chunks id) w1 with
            | (w2, Raise e) => (w2, Raise e)
            | (w2, Ok _) =>
                match run (if bool_decide (pdf_path = destination_of uploads_dir id)
                           then mret tt
                           else copy2 same_file pdf_path
                                  (destination_of uploads_dir id)) w2
                with
                | (w3, Raise e) => (w3, Raise e)
                | (w3, Ok _) =>
                    (World (files w3) (chroma w3)
                       (stdout w3 ++
                          ["✓ Successfully processed: " +:+ Pathlib.name pdf_path])
                       (clock w3),
                     Ok (ProcessingResult id (Pathlib.name pdf_path)
                           (pdf_num_pages data) (Z.of_nat (length chunks))
                           doc_metadata collection_name "success"))
                end
            end
        end
    end.
Proof.
  intros id. subst id. unfold process_pdf, started. cbv zeta.
  rewrite run_bind, run_print. cbv beta iota. rewrite run_bind.
  destruct (run (extract_text fitz_open pdf_path) _) as [w1 [data|e]]; [|reflexivity].
  rewrite run_bind. unfold datetime_now_isoformat at 1.
  rewrite run_bind, run_get_world. cbv beta iota. rewrite run_mret. cbv beta iota.
  rewrite run_bind, run_lift.
  destruct (chunk_pages split_text (pdf_pages data) _) as [chunks|e]; [|reflexivity].
  rewrite run_bind.
  destruct (run (add_documents name_check collection_add collection_name chunks _) w1)
    as [w2 [[]|e]]; [|reflexivity].
  rewrite run_bind.
  destruct (run (if bool_decide _ then _ else _) w2) as [w3 [[]|e]]; [|reflexivity].
  rewrite run_bind, run_print. cbv beta iota. rewrite run_mret. reflexivity.
Qed.

(** The archival step, given the source file is there: it raises when the
    source is the archive file under another path, and writes the copy
    otherwise. *)
Lemma archive_run (pdf_path destination content : string) (w : world) :
  files w !! pdf_path = Some content ->
  run (if bool_decide (pdf_path = destination) then mret tt
       else copy2 same_file pdf_path destination) w
  = if negb (bool_decide (pdf_path = destination))
       && same_file pdf_path destination
    then (w, Raise (SameFileError
                      (pdf_path +:+ " and " +:+ destination
                       +:+ " are the same file")))
    else (World (<[destination := content]> (files w)) (chroma w) (stdout w)
            (clock w), Ok tt).
Proof.
  intros Hfile. case_bool_decide as Heq; cbn [negb andb].
  - subst destination. rewrite run_mret, insert_id by exact Hfile.
    destruct w; reflexivity.
  - unfold copy2. rewrite run_bind, run_get_world. cbv beta iota. rewrite Hfile.
    rewrite bool_decide_eq_false_2 by exact Heq. cbn [orb].
    destruct (same_file pdf_path destination); reflexivity.
Qed.

(** When [process_pdf] raises, the files are as before. *)
Lemma process_pdf_raise_files (pdf_path : string)
    (document_id : option string) (collection_name : string) (w w' : world)
    (e : exn) :
  run (process_pdf split_text fitz_open name_check collection_add same_file
         uploads_dir pdf_path document_id collection_name) w = (w', Raise e) ->
  files w' = files w /\
  stdout w' = stdout w ++ ["Processing PDF: " +:+ Pathlib.name pdf_path].
Proof.
  rewrite process_pdf_run. cbv zeta.
  pose proof (extract_text_world fitz_open pdf_path (started pdf_path w)) as Hw1.
  destruct (run (extract_text fitz_open pdf_path) (started pdf_path w))
    as [w1 [data|e1]] eqn:Hextract; cbn [fst] in Hw1; subst w1.
  2: { intros [= <- _]. split; reflexivity. }
  destruct (chunk_pages split_text (pdf_pages data) _) as [chunks|e1].
  2: { intros [= <- _]. split; reflexivity. }
  pose proof (add_documents_files name_check collection_add collection_name
                (default (Pathlib.stem pdf_path) document_id) chunks
                (started pdf_path w)) as Hw2.
  pose proof (add_documents_stdout collection_name
                (default (Pathlib.stem pdf_path) document_id) chunks
                (started pdf_path w)) as Hout.
  destruct (run (add_documents name_check collection_add collection_name chunks _) _)
    as [w2 [[]|e1]]; cbn [fst] in Hw2, Hout.
  2: { intros [= <- _]. split; [exact Hw2 | exact Hout]. }
  destruct (extract_text_file_exists _ _ _ _ Hextract) as [content Hfile].
  rewrite (archive_run pdf_path _ content w2) by (rewrite Hw2; exact Hfile).
  destruct (negb _ && _); [|discriminate].
  intros [= <- _]. split; [exact Hw2 | exact Hout].
Qed.

(** X10: whenever [process_pdf] raises, whatever the step that failed
    (reading the file, chunking, creating the collection, the index write or
    the copy into the archive), no file has been written, removed or changed,
    and only the first of its two lines has been printed. *)
Theorem process_pdf_failure_writes_no_file (pdf_path : string)
    (document_id : option string) (collection_name : string) (w w' : world)
    (e : exn) :
  run (process_pdf split_text fitz_open name_check collection_add same_file
         uploads_dir pdf_path document_id collection_name) w = (w', Raise e) ->
  files w' = files w /\
  stdout w' = stdout w ++ ["Processing PDF: " +:+ Pathlib.name pdf_path].
Proof. apply process_pdf_raise_files. Qed.

(** When [process_pdf] returns, the source file is still there. *)
Lemma process_pdf_returns_source (pdf_path : string)
    (document_id : option string) (collection_name : string) (w w' : world)
    (r : processing_result) :
  run (process_pdf split_text fitz_open name_check collection_add same_file
         uploads_dir pdf_path document_id collection_name) w = (w', Ok r) ->
  exists content, files w' !! pdf_path = Some content.
Proof.
  rewrite process_pdf_run. cbv zeta.
  pose proof (extract_text_world fitz_open pdf_path (started pdf_path w)) as Hw1.
  destruct (run (extract_text fitz_open pdf_path) (started pdf_path w))
    as [w1 [data|e1]] eqn:Hextract; cbn [fst] in Hw1; subst w1; [|discriminate].
  destruct (chunk_pages split_text (pdf_pages data) _) as [chunks|e1]; [|discriminate].
  pose proof (add_documents_files name_check collection_add collection_name
                (default (Pathlib.stem pdf_path) document_id) chunks
                (started pdf_path w)) as Hw2.
  destruct (run (add_documents name_check collection_add collection_name chunks _) _)
    as [w2 [[]|e1]]; cbn [fst] in Hw2; [|discriminate].
  destruct (extract_text_file_exists _ _ _ _ Hextract) as [content Hfile].
  cbn [started files] in Hfile.
  rewrite (archive_run pdf_path _ content w2) by (rewrite Hw2; exact Hfile).
  destruct (negb _ && _); [discriminate|].
  intros [= <- _]. exists content. cbn [files].
  destruct (decide (destination_of uploads_dir
                      (default (Pathlib.stem pdf_path) document_id) = pdf_path))
    as [->|Hne].
  - apply lookup_insert_eq.
  - rewrite lookup_insert_ne by exact Hne. rewrite Hw2. exact Hfile.
Qed.

(** X11: when [process_pdf] returns, the source file existed, the archive
    path under the uploads directory holds a copy of its content, no other
    file has changed (the source is still there), two lines have been printed,
    and the result names the document id, the file name and the collection
    with status [success]. *)
Theorem process_pdf_success_archives (pdf_path : string)
    (document_id : option string) (collection_name : string) (w w' : world)
    (r : processing_result) :
  let id := default (Pathlib.stem pdf_path) document_id in
  run (process_pdf split_text fitz_open name_check collection_add same_file
         uploads_dir pdf_path document_id collection_name) w = (w', Ok r) ->
  exists content,
    files w !! pdf_path = Some content /\
    files w' = <[destination_of uploads_dir id := content]> (files w) /\
    files w' !! pdf_path = Some content /\
    stdout w'
    = stdout w ++ ["Processing PDF: " +:+ Pathlib.name pdf_path;
                   "✓ Successfully processed: " +:+ Pathlib.name pdf_path] /\
    res_document_id r = id /\
    res_filename r = Pathlib.name pdf_path /\
    res_collection r = collection_name /\
    res_status r = "success" /\
    res_metadata r !! "document_id" = Some (VStr id).
Proof.
  intros id. subst id. rewrite process_pdf_run. cbv zeta.
  pose proof (extract_text_world fitz_open pdf_path (started pdf_path w)) as Hw1.
  destruct (run (extract_text fitz_open pdf_path) (started pdf_path w))
    as [w1 [data|e1]] eqn:Hextract; cbn [fst] in Hw1; subst w1; [|discriminate].
  destruct (chunk_pages split_text (pdf_pages data) _) as [chunks|e1]; [|discriminate].
  pose proof (add_documents_files name_check collection_add collection_name
                (default (Pathlib.stem pdf_path) document_id) chunks
                (started pdf_path w)) as Hw2.
  destruct (run (add_documents name_check collection_add collection_name chunks _) _)
    as [w2 [[]|e1]] eqn:Hadd; cbn [fst] in Hw2; [|discriminate].
  destruct (extract_text_file_exists _ _ _ _ Hextract) as [content Hfile].
  cbn [started files] in Hfile.
  rewrite (archive_run pdf_path _ content w2) by (rewrite Hw2; exact Hfile).
  destruct (negb _ && _); [discriminate|].
  intros [= <- <-]. exists content. cbn [files stdout res_document_id res_filename
    res_collection res_status res_metadata].
  split; [exact Hfile|]. split; [rewrite Hw2; reflexivity|]. split.
  { destruct (decide (destination_of uploads_dir
                        (default (Pathlib.stem pdf_path) document_id) = pdf_path))
      as [->|Hne].
    - apply lookup_insert_eq.
    - rewrite lookup_insert_ne by exact Hne. rewrite Hw2. exact Hfile. }
  split.
  { pose proof (add_documents_stdout collection_name
                  (default (Pathlib.stem pdf_path) document_id) chunks
                  (started pdf_path w)) as Hout.
    rewrite Hadd in Hout. cbn [fst] in Hout. rewrite Hout. cbn [started stdout].
    rewrite <- app_assoc. reflexivity. }
  do 4 (split; [reflexivity|]).
  unfold doc_metadata_of. rewrite !lookup_insert_ne by discriminate.
  apply lookup_singleton_eq.
Qed.



(** What [delete_document] of the processor does, given the world the
    deletion from the index leaves. *)
Lemma processor_delete_run (document_id collection_name : string) (w : world) :
  let w1 := (run (VectorStore.delete_document collection_delete collection_name
                    document_id) w).1 in
  run (delete_document collection_delete uploads_dir document_id collection_name) w
  = (World (delete (destination_of uploads_dir document_id) (files w))
       (chroma w1) (stdout w1) (clock w),
     Ok (DeletionResult document_id "deleted")).
Proof.
  cbv zeta. unfold delete_document. rewrite run_bind.
  rewrite delete_document_run. unfold destination_of.
  set (dest := Pathlib.join uploads_dir (document_id +:+ ".pdf")).
  assert (Hend : forall w1 : world,
             files w1 = files w -> clock w1 = clock w ->
             run (present ← path_exists dest;
                  (if present : bool then unlink dest else mret tt);;
                  mret (DeletionResult document_id "deleted")) w1
             = (World (delete dest (files w)) (chroma w1) (stdout w1) (clock w),
                Ok (DeletionResult document_id "deleted"))).
  { intros w1 Hf Hc. rewrite run_bind. unfold path_exists.
    rewrite run_bind, run_get_world. cbv beta iota. rewrite run_mret. cbv beta iota.
    rewrite run_bind. rewrite Hf.
    destruct (files w !! dest) as [content|] eqn:Hdest.
    - unfold unlink. rewrite run_bind, run_get_world. cbv beta iota.
      rewrite Hf, Hdest. unfold remove_file. cbn [run]. rewrite Hf, Hc, run_mret.
      reflexivity.
    - rewrite run_mret. cbv beta iota. rewrite run_mret.
      rewrite delete_id by exact Hdest. rewrite <- Hf, <- Hc.
      destruct w1; reflexivity. }
  destruct (chroma w !! collection_name) as [c|]; cbv beta iota;
    [destruct (collection_delete c _); cbv beta iota|];
    rewrite Hend by reflexivity; reflexivity.
Qed.


(** X14: ingesting a document and then deleting it leaves the files as they
    were before, provided nothing was stored under the archive path before. *)
Theorem process_then_delete_restores_files (pdf_path : string)
    (document_id : option string) (collection_name : string) (w w1 : world)
    (r : processing_result) :
  let id := default (Pathlib.stem pdf_path) document_id in
  files w !! destination_of uploads_dir id = None ->
  run (process_pdf split_text fitz_open name_check collection_add same_file
         uploads_dir pdf_path document_id collection_name) w = (w1, Ok r) ->
  files (run (delete_document collection_delete uploads_dir (res_document_id r)
                collection_name) w1).1
  = files w.
Proof.
  intros id Hfree Hrun. subst id. rewrite processor_delete_run. cbn [fst files].
  rewrite process_pdf_run in Hrun. cbv zeta in Hrun.
  pose proof (extract_text_world fitz_open pdf_path (started pdf_path w)) as Hw1.
  destruct (run (extract_text fitz_open pdf_path) (started pdf_path w))
    as [w0 [data|e1]] eqn:Hextract; cbn [fst] in Hw1; subst w0; [|discriminate].
  destruct (chunk_pages split_text (pdf_pages data) _) as [chunks|e1]; [|discriminate].
  pose proof (add_documents_files name_check collection_add collection_name
                (default (Pathlib.stem pdf_path) document_id) chunks
                (started pdf_path w)) as Hw2.
  destruct (run (add_documents name_check collection_add collection_name chunks _) _)
    as [w2 [[]|e1]]; cbn [fst] in Hw2; [|discriminate].
  destruct (extract_text_file_exists _ _ _ _ Hextract) as [content Hfile].
  cbn [started files] in Hfile.
  rewrite (archive_run pdf_path _ content w2) in Hrun by (rewrite Hw2; exact Hfile).
  destruct (negb _ && _); [discriminate|].
  injection Hrun as <- <-. cbn [files res_document_id].
  rewrite Hw2. cbn [started files]. apply delete_insert_id. exact Hfree.
Qed.

End Pipeline.

Lemma extract_text_pages_numbered_witness :
  exists data,
    run (extract_text plain_reader "uploads/temp_notes.pdf") upload_world
    = (upload_world, Ok data) /\
    pdf_pages data = [page_at 0 "hello world"].
Proof.
  destruct (extract_text_pages_numbered plain_reader "uploads/temp_notes.pdf"
              "hello world" (FitzDocument ["hello world"] None) upload_world)
    as (data & Hrun & Hpages & _).
  - vm_compute. reflexivity.
  - reflexivity.
  - exists data. split; [exact Hrun | exact Hpages].
Defined.

Lemma process_pdf_failure_writes_no_file_witness :
  files (run (process_pdf config_splitter plain_reader any_name mem_add
                one_path "uploads" "uploads/missing.pdf" None "documents")
           upload_world).1
  = files upload_world /\
  files (run (process_pdf config_splitter plain_reader sized_name mem_add
                one_path "uploads" "uploads/temp_notes.pdf" (Some "notes") "x8")
           upload_world).1
  = files upload_world /\
  files (run (process_pdf config_splitter plain_reader any_name mem_add
                notes_alias "uploads" "uploads/../uploads/notes.pdf"
                (Some "notes") "documents")
           archived_world).1
  = files archived_world.
Proof.
  split; [|split].
  - assert (exists w' e,
              run (process_pdf config_splitter plain_reader any_name mem_add
                     one_path "uploads" "uploads/missing.pdf" None "documents")
                upload_world
              = (w', Raise e)) as (w' & e & Hrun).
    { eexists _, _. vm_compute. reflexivity. }
    rewrite Hrun. cbn [fst].
    exact (proj1 (process_pdf_failure_writes_no_file config_splitter plain_reader
                    any_name mem_add one_path "uploads" "uploads/missing.pdf"
                    None "documents" upload_world w' e Hrun)).
  - assert (exists w' e,
              run (process_pdf config_splitter plain_reader sized_name mem_add
                     one_path "uploads" "uploads/temp_notes.pdf" (Some "notes")
                     "x8")
                upload_world
              = (w', Raise e)) as (w' & e & Hrun).
    { eexists _, _. vm_compute. reflexivity. }
    rewrite Hrun. cbn [fst].
    exact (proj1 (process_pdf_failure_writes_no_file config_splitter plain_reader
                    sized_name mem_add one_path "uploads"
                    "uploads/temp_notes.pdf" (Some "notes") "x8" upload_world
                    w' e Hrun)).
  - assert (exists w' e,
              run (process_pdf config_splitter plain_reader any_name mem_add
                     notes_alias "uploads" "uploads/../uploads/notes.pdf"
                     (Some "notes") "documents")
                archived_world
              = (w', Raise e)) as (w' & e & Hrun).
    { eexists _, _. vm_compute. reflexivity. }
    rewrite Hrun. cbn [fst].
    exact (proj1 (process_pdf_failure_writes_no_file config_splitter plain_reader
                    any_name mem_add notes_alias "uploads"
                    "uploads/../uploads/notes.pdf" (Some "notes") "documents"
                    archived_world w' e Hrun)).
Defined.

Lemma process_pdf_success_archives_witness :
  exists w' r,
    run (process_pdf config_splitter plain_reader any_name mem_add one_path
           "uploads" "uploads/temp_notes.pdf" (Some "notes") "documents")
      upload_world
    = (w', Ok r) /\
    files w' !! "uploads/notes.pdf" = files upload_world !! "uploads/temp_notes.pdf".
Proof.
  assert (exists w' r,
            run (process_pdf config_splitter plain_reader any_name mem_add
                   one_path "uploads" "uploads/temp_notes.pdf" (Some "notes")
                   "documents")
              upload_world
            = (w', Ok r)) as (w' & r & Hrun).
  { eexists _, _. vm_compute. reflexivity. }
  exists w', r. split; [exact Hrun|].
  destruct (process_pdf_success_archives config_splitter plain_reader any_name
              mem_add one_path "uploads" "uploads/temp_notes.pdf" (Some "notes")
              "documents" upload_world w' r Hrun)
    as (content & Hfile & Hfiles & _).
  rewrite Hfiles, Hfile. apply lookup_insert_eq.
Defined.


Lemma process_then_delete_restores_files_witness :
  exists w1 r,
    run (process_pdf config_splitter plain_reader any_name mem_add one_path
           "uploads" "uploads/temp_notes.pdf" (Some "notes") "documents")
      upload_world
    = (w1, Ok r) /\
    files (run (delete_document mem_delete "uploads" (res_document_id r)
                  "documents") w1).1
    = files upload_world.
Proof.
  assert (exists w1 r,
            run (process_pdf config_splitter plain_reader any_name mem_add
                   one_path "uploads" "uploads/temp_notes.pdf" (Some "notes")
                   "documents")
              upload_world
            = (w1, Ok r)) as (w1 & r & Hrun).
  { eexists _, _. vm_compute. reflexivity. }
  exists w1, r. split; [exact Hrun|].
  apply (process_then_delete_restores_files config_splitter plain_reader any_name
           mem_add one_path mem_delete "uploads" "uploads/temp_notes.pdf"
           (Some "notes") "documents" upload_world w1 r); [|exact Hrun].
  vm_compute. reflexivity.
Defined.

End PipelineMoreFacts.

(** ** More on the RAG orchestrator *)

Module RAGMoreFacts.
Import Runtime VectorStore PDFParser RAGService RAGPipeline Citations Shapes Fixtures.
Import MoreFixtures.
Import RuntimeFacts RAGServiceFacts.

Lemma collect_context_spec (documents : list pyval) :
  forall (metadatas : list (gmap string pyval)) (distances : list float)
         (context_chunks : list (gmap string pyval)),
    collect_context documents metadatas distances context_chunks
    = context_chunks
        ++ (context_chunk <$> zip (zip documents metadatas) distances).
Proof.
  induction documents as [|doc documents IH]; intros metadatas distances acc.
  - simpl. rewrite app_nil_r. reflexivity.
  - destruct metadatas as [|metadata metadatas];
      [simpl; rewrite app_nil_r; reflexivity|].
    destruct distances as [|distance distances];
      [simpl; rewrite app_nil_r; reflexivity|].
    simpl. rewrite IH, <- app_assoc. reflexivity.
Qed.

Lemma context_chunk_complete (hit : pyval * gmap string pyval * float) :
  complete_chunk (context_chunk hit).
Proof.
  unfold complete_chunk, context_chunk.
  repeat split; repeat (rewrite lookup_insert_ne by discriminate);
    rewrite ?lookup_insert_eq, ?lookup_singleton_eq; eauto.
Qed.

Section Pipeline.
Variable float_repr : float -> string.
Variable llm_invoke : list message -> result string.
Variable llm_stream : list message -> list string * option exn.
Variable collection_query :
  collection -> string -> Z -> option (gmap string pyval) ->
  result query_response.

(** [retrieve_context] in terms of [query]. *)
Lemma retrieve_context_run (query_text collection_name : string) (n_results : Z)
    (document_id : option string) (w : world) :
  run (retrieve_context collection_query query_text collection_name n_results
         document_id) w
  = match run (query collection_query collection_name query_text n_results
                 (filter_of document_id)) w with
    | (w', Ok results) =>
        (w', Ok (context_chunk <$>
                   zip (zip (documents results) (metadatas results))
                     (distances results)))
    | (w', Raise e) => (w', Raise e)
    end.
Proof.
  unfold retrieve_context. cbv zeta. rewrite run_bind.
  destruct (run (query _ _ _ _ _) w) as [w' [results|e]]; [|reflexivity].
  rewrite run_mret, collect_context_spec. reflexivity.
Qed.

(** [query] never changes the world. *)
Lemma query_world (collection_name query_text : string) (n_results : Z)
    (filter_dict : option (gmap string pyval)) (w : world) :
  (run (query collection_query collection_name query_text n_results filter_dict) w).1
  = w.
Proof.
  unfold query, attempt, get_collection. cbn.
  destruct (chroma w !! collection_name) as [c|]; cbn; [|reflexivity].
  destruct (collection_query c query_text n_results filter_dict); reflexivity.
Qed.

(** X15: [retrieve_context] returns one chunk per hit of the query, in the
    order of the hits and as many as the shortest of the three result lists:
    the text is the document, [page_number], [document_id] and [filename] are
    copied from the metadata ([None] where the metadata lacks the key), and
    [similarity] is 1 minus the distance. It does not change the world. *)
Theorem retrieve_context_from_hits (query_text collection_name : string)
    (n_results : Z) (document_id : option string) (w w' : world)
    (chunks : list (gmap string pyval)) :
  run (retrieve_context collection_query query_text collection_name n_results
         document_id) w = (w', Ok chunks) ->
  w' = w /\
  exists results,
    run (query collection_query collection_name query_text n_results
           (filter_of document_id)) w = (w, Ok results) /\
    chunks
    = context_chunk <$>
        zip (zip (documents results) (metadatas results)) (distances results).
Proof.
  rewrite retrieve_context_run.
  pose proof (query_world collection_name query_text n_results
                (filter_of document_id) w) as Hw.
  destruct (run (query _ _ _ _ _) w) as [w1 [results|e]]; [|discriminate].
  cbn [fst] in Hw. subst w1. intros [= <- <-].
  split; [reflexivity|]. exists results. split; reflexivity.
Qed.

(** A chunk with a [text] key is formatted. *)
Lemma complete_chunks_have_text (chunks : list (gmap string pyval)) :
  Forall complete_chunk chunks ->
  Forall (fun c => is_Some (c !! "text")) chunks.
Proof.
  intros Hall. eapply Forall_impl; [exact Hall|]. intros c Hc. apply Hc.
Qed.

(** X16: every chunk [retrieve_context] returns has all five keys, so
    [format_context] never raises on them; and since [page_number] and
    [filename] are always present, the defaults [N/A] and [Unknown] of
    [format_context] are never used for a retrieved chunk. *)
Theorem retrieved_chunks_are_complete (query_text collection_name : string)
    (n_results : Z) (document_id : option string) (w w' : world)
    (chunks : list (gmap string pyval)) :
  run (retrieve_context collection_query query_text collection_name n_results
         document_id) w = (w', Ok chunks) ->
  Forall complete_chunk chunks /\
  Forall (fun c =>
            dict_get_or c "page_number" (VStr "N/A") = dict_get c "page_number" /\
            dict_get_or c "filename" (VStr "Unknown") = dict_get c "filename")
    chunks /\
  exists context, format_context float_repr chunks = Ok context.
Proof.
  rewrite retrieve_context_run.
  destruct (run (query _ _ _ _ _) w) as [w1 [results|e]]; [|discriminate].
  intros [= _ <-].
  assert (Hall : Forall complete_chunk
                   (context_chunk <$>
                      zip (zip (documents results) (metadatas results))
                        (distances results))).
  { apply Forall_fmap, Forall_forall. intros hit _. apply context_chunk_complete. }
  split; [exact Hall|]. split.
  - eapply Forall_impl; [exact Hall|]. intros c (_ & [pn Hpn] & _ & [fn Hfn] & _).
    unfold dict_get_or, dict_get. rewrite Hpn, Hfn. split; reflexivity.
  - apply format_context_total, complete_chunks_have_text, Hall.
Qed.

(** X17: a chat against a collection that does not exist is not an error:
    retrieval finds nothing, the world is left as it is, and the answer is
    generated from the fixed no-context sentence, with an empty sources list
    and a context count of 0. *)
Theorem chat_absent_collection (query_text collection_name : string)
    (document_id : option string)
    (conversation_history : option (list (gmap string pyval))) (n_results : Z)
    (w : world) :
  chroma w !! collection_name = None ->
  run (chat float_repr llm_invoke collection_query query_text collection_name
         document_id conversation_history n_results) w
  = (w, generate_answer float_repr llm_invoke query_text [] conversation_history) /\
  format_context float_repr [] = Ok "No relevant context found in the documents." /\
  forall r,
    generate_answer float_repr llm_invoke query_text [] conversation_history = Ok r ->
    sources r = [] /\ context_used r = 0.
Proof.
  intros Habsent. split; [|split; [reflexivity|]].
  - unfold chat. rewrite run_bind, retrieve_context_run.
    unfold query, attempt, get_collection. cbn. rewrite Habsent. reflexivity.
  - unfold generate_answer. intros r.
    destruct (build_messages float_repr query_text [] conversation_history)
      as [messages|e]; [|discriminate].
    cbn [mbind result_bind]. destruct (llm_invoke messages); [|discriminate].
    intros [= <-]. split; reflexivity.
Qed.

(** X18: with a deterministic generation capability, [chat_stream] and [chat]
    agree on every world: they leave the same world, the stream is content
    elements followed by one sources element carrying the sources and context
    count of the blocking answer, and the contents add up to that answer; if
    [chat] raises, the stream raises the same error and yields nothing. *)
Theorem chat_stream_agrees_with_chat (query_text collection_name : string)
    (document_id : option string)
    (conversation_history : option (list (gmap string pyval))) (n_results : Z)
    (w : world) :
  deterministic_llm llm_invoke llm_stream ->
  exists w' streamed,
    run (chat_stream float_repr llm_stream collection_query query_text
           collection_name document_id conversation_history n_results) w
    = (w', Ok streamed) /\
    match run (chat float_repr llm_invoke collection_query query_text
                 collection_name document_id conversation_history n_results) w
    with
    | (w'', Ok r) =>
        w'' = w' /\
        exists contents,
          streamed = ((content_event <$> contents)
                        ++ [sources_event (sources r) (context_used r)], None) /\
          String.concat "" contents = answer r
    | (w'', Raise e) => w'' = w' /\ streamed = ([], Some e)
    end.
Proof.
  intros Hllm. unfold chat_stream, chat, attempt. rewrite !run_bind. cbn [run].
  destruct (run (retrieve_context collection_query query_text collection_name
                   n_results document_id) w) as [w1 [chunks|e]].
  - rewrite run_mret, run_lift. eexists _, _. split; [reflexivity|].
    unfold generate_answer, generate_answer_stream.
    destruct (build_messages float_repr query_text chunks conversation_history)
      as [messages|e]; [|split; reflexivity].
    destruct (Hllm messages) as [Hend Hanswer].
    cbn [mbind result_bind]. rewrite Hanswer. cbn [mbind result_bind].
    destruct (llm_stream messages) as [increments failure].
    cbn [fst snd] in *. subst failure. split; [reflexivity|].
    eexists. split; [reflexivity|]. apply concat_skip_empty.
  - rewrite run_mret. eexists _, _. split; [reflexivity|]. split; reflexivity.
Qed.

End Pipeline.

Lemma retrieve_context_from_hits_witness :
  exists chunks,
    run (retrieve_context two_hits "Why?" "documents" 5 None) indexed_world
    = (indexed_world, Ok chunks) /\
    length chunks = 2%nat.
Proof.
  assert (exists w' chunks,
            run (retrieve_context two_hits "Why?" "documents" 5 None) indexed_world
            = (w', Ok chunks)) as (w' & chunks & Hrun).
  { eexists _, _. vm_compute. reflexivity. }
  destruct (retrieve_context_from_hits two_hits "Why?" "documents" 5 None
              indexed_world w' chunks Hrun) as (-> & results & Hquery & Hchunks).
  exists chunks. split; [exact Hrun|].
  assert (Hres : results
                 = QueryResult [VStr "alpha"; VStr "beta"]
                     [ <["filename" := VStr "a.pdf"]>
                       (<["document_id" := VStr "doc1"]>
                          {["page_number" := VInt 1]}); ∅ ]
                     [0.25%float; 0.5%float] ["doc1_chunk_0"; "x_chunk_0"]).
  { assert (Hq : run (query two_hits "documents" "Why?" 5 (filter_of None))
                   indexed_world
                 = (indexed_world,
                    Ok (QueryResult [VStr "alpha"; VStr "beta"]
                          [ <["filename" := VStr "a.pdf"]>
                            (<["document_id" := VStr "doc1"]>
                               {["page_number" := VInt 1]}); ∅ ]
                          [0.25%float; 0.5%float] ["doc1_chunk_0"; "x_chunk_0"])))
      by reflexivity.
    rewrite Hq in Hquery. injection Hquery as <-. reflexivity. }
  rewrite Hchunks, Hres. reflexivity.
Defined.

Lemma retrieved_chunks_are_complete_witness :
  exists chunks,
    run (retrieve_context two_hits "Why?" "documents" 5 (Some "doc1")) indexed_world
    = (indexed_world, Ok chunks) /\
    Forall complete_chunk chunks.
Proof.
  assert (exists chunks,
            run (retrieve_context two_hits "Why?" "documents" 5 (Some "doc1"))
              indexed_world
            = (indexed_world, Ok chunks)) as (chunks & Hrun).
  { eexists. reflexivity. }
  exists chunks. split; [exact Hrun|].
  exact (proj1 (retrieved_chunks_are_complete stub_repr two_hits "Why?" "documents"
                  5 (Some "doc1") indexed_world indexed_world chunks Hrun)).
Defined.

Lemma chat_absent_collection_witness :
  run (chat stub_repr stub_invoke failing_query "Why?" "documents" None None 5)
    upload_world
  = (upload_world, generate_answer stub_repr stub_invoke "Why?" [] None).
Proof.
  apply (chat_absent_collection stub_repr stub_invoke failing_query "Why?"
           "documents" None None 5 upload_world).
  vm_compute. reflexivity.
Defined.

Lemma chat_stream_agrees_with_chat_witness :
  exists w' streamed,
    run (chat_stream stub_repr stub_stream two_hits "Why?" "documents" None None 5)
      indexed_world
    = (w', Ok streamed).
Proof.
  destruct (chat_stream_agrees_with_chat stub_repr stub_invoke stub_stream two_hits
              "Why?" "documents" None None 5 indexed_world stub_is_deterministic)
    as (w' & streamed & Hrun & _).
  exists w', streamed. exact Hrun.
Defined.

End RAGMoreFacts.

(** ** Messages, context and citations *)

Module PromptFacts.
Import PDFParser RAGService Citations Shapes Fixtures MoreFixtures.
Import RAGServiceFacts.

(** The loop over the history only appends, one message at most per entry,
    and never a system message. *)
Lemma add_history_appends (history : list (gmap string pyval)) :
  forall messages out,
    add_history history messages = Ok out ->
    exists added,
      out = messages ++ added /\
      (length added <= length history)%nat /\
      Forall (fun m => match m with SystemMessage _ => False | _ => True end) added.
Proof.
  induction history as [|msg rest IH]; intros messages out Hrun.
  - simpl in Hrun. injection Hrun as <-. exists []. rewrite app_nil_r.
    repeat split; [simpl; lia | apply Forall_nil; exact I].
  - simpl in Hrun.
    destruct (subscript msg "role") as [role|]; simpl in Hrun; [|discriminate].
    destruct (py_eqb role (VStr "user")).
    + destruct (subscript msg "content") as [content|]; simpl in Hrun; [|discriminate].
      destruct (IH _ _ Hrun) as (added & -> & Hlen & Hall).
      exists (HumanMessage content :: added). rewrite <- app_assoc.
      repeat split; [simpl; lia | apply Forall_cons; split; [exact I | exact Hall]].
    + destruct (py_eqb role (VStr "assistant")).
      * destruct (subscript msg "content") as [content|]; simpl in Hrun; [|discriminate].
        destruct (IH _ _ Hrun) as (added & -> & Hlen & Hall).
        exists (AIMessage content :: added). rewrite <- app_assoc.
        repeat split; [simpl; lia | apply Forall_cons; split; [exact I | exact Hall]].
      * destruct (IH _ _ Hrun) as (added & -> & Hlen & Hall).
        exists added. repeat split; [simpl; lia | exact Hall].
Qed.

Lemma last_six_length {A : Type} (l : list A) : (length (last_six l) <= 6)%nat.
Proof. unfold last_six. rewrite length_drop. lia. Qed.

Lemma last_six_app {A : Type} (old recent : list A) :
  length recent = 6%nat -> last_six (old ++ recent) = recent.
Proof.
  intros Hlen. unfold last_six. rewrite length_app, Hlen.
  replace (length old + 6 - 6)%nat with (length old) by lia.
  apply drop_app_length.
Qed.

Section Service.
Variable float_repr : float -> string.

(** X19: only the last six entries of the conversation history count: older
    entries, well formed or not, change neither the messages nor whether an
    error is raised. *)
Theorem build_messages_last_six (query : string)
    (context_chunks : list (gmap string pyval))
    (old recent : list (gmap string pyval)) :
  length recent = 6%nat ->
  build_messages float_repr query context_chunks (Some (old ++ recent))
  = build_messages float_repr query context_chunks (Some recent).
Proof.
  intros Hlen. unfold build_messages.
  destruct (format_context float_repr context_chunks) as [context|e]; [|reflexivity].
  cbn [mbind result_bind].
  pose proof (last_six_app old recent Hlen) as Hold.
  pose proof (last_six_app [] recent Hlen) as Hnew. cbn [app] in Hnew.
  destruct recent as [|m recent]; [discriminate Hlen|].
  destruct (old ++ m :: recent) as [|m' l'] eqn:Happ.
  { destruct old; discriminate Happ. }
  cbv beta iota zeta. rewrite Hold, Hnew. reflexivity.
Qed.

(** X20: the message sequence always starts with the system prompt, ends with
    one user message holding the prompt built from the formatted context and
    the query, and has at most six history messages, none of them a system
    message, in between: at most eight messages in all. *)
Theorem build_messages_shape (query : string)
    (context_chunks : list (gmap string pyval))
    (conversation_history : option (list (gmap string pyval)))
    (messages : list message) :
  build_messages float_repr query context_chunks conversation_history
  = Ok messages ->
  exists context history_messages,
    format_context float_repr context_chunks = Ok context /\
    messages
    = SystemMessage (VStr system_prompt)
        :: history_messages ++ [HumanMessage (VStr (build_prompt context query))] /\
    (length history_messages <= 6)%nat /\
    Forall (fun m => match m with SystemMessage _ => False | _ => True end)
      history_messages /\
    (length messages <= 8)%nat.
Proof.
  unfold build_messages.
  destruct (format_context float_repr context_chunks) as [context|e]; [|discriminate].
  cbn [mbind result_bind]. intros Hrun. exists context.
  assert (Hadded : exists added,
            messages
            = SystemMessage (VStr system_prompt)
                :: added ++ [HumanMessage (VStr (build_prompt context query))] /\
            (length added <= 6)%nat /\
            Forall (fun m => match m with SystemMessage _ => False | _ => True end)
              added).
  { destruct conversation_history as [[|m history]|]; cbv beta iota zeta in Hrun.
    1, 3: injection Hrun as <-; exists [];
          repeat split; [simpl; lia | apply Forall_nil; exact I].
    destruct (add_history (last_six (m :: history))
                [SystemMessage (VStr system_prompt)]) as [out|e] eqn:Hadd;
      [|discriminate Hrun].
    injection Hrun as <-.
    destruct (add_history_appends _ _ _ Hadd) as (added & -> & Hlen & Hall).
    exists added. repeat split; [|exact Hall].
    pose proof (last_six_length (m :: history)). lia. }
  destruct Hadded as (added & -> & Hlen & Hall).
  exists added. repeat split; try assumption.
  simpl. rewrite length_app. simpl. lia.
Qed.

(** [format_parts] fails only on a chunk without [text]. *)
Lemma format_parts_cases (chunks : list (gmap string pyval)) :
  forall i parts,
    match format_parts float_repr chunks i parts with
    | Ok _ => Forall (fun c => is_Some (c !! "text")) chunks
    | Raise e =>
        e = KeyError "text" /\ Exists (fun c => c !! "text" = None) chunks
    end.
Proof.
  induction chunks as [|c rest IH]; intros i parts.
  - simpl. apply Forall_nil. exact I.
  - cbn [format_parts]. unfold subscript.
    destruct (c !! "text") as [text|] eqn:Htext; cbn [mbind result_bind].
    + specialize (IH (S i)
        (parts ++
           ["[Source " +:+ pretty i +:+ " - "
            +:+ py_str float_repr (dict_get_or c "filename" (VStr "Unknown"))
            +:+ ", Page "
            +:+ py_str float_repr (dict_get_or c "page_number" (VStr "N/A"))
            +:+ "]" +:+ nl +:+ py_str float_repr text])).
      destruct (format_parts float_repr rest _ _).
      * apply Forall_cons. split; [eauto | exact IH].
      * destruct IH as [-> Hex]. split; [reflexivity|]. apply Exists_cons_tl, Hex.
    + split; [reflexivity|]. apply Exists_cons_hd, Htext.
Qed.

(** X21: [format_context] returns a string exactly when every chunk has a
    [text] key; otherwise it raises [KeyError] for [text] and nothing else.
    Missing [page_number] or [filename] keys never make it fail. *)
Theorem format_context_fails_only_without_text
    (context_chunks : list (gmap string pyval)) :
  match format_context float_repr context_chunks with
  | Ok _ => Forall (fun c => is_Some (c !! "text")) context_chunks
  | Raise e =>
      e = KeyError "text" /\ Exists (fun c => c !! "text" = None) context_chunks
  end.
Proof.
  unfold format_context. destruct context_chunks as [|c rest].
  - apply Forall_nil. exact I.
  - pose proof (format_parts_cases (c :: rest) 1%nat []) as Hparts.
    destruct (format_parts float_repr (c :: rest) 1 []); exact Hparts.
Qed.

End Service.

Lemma build_messages_last_six_witness :
  build_messages stub_repr "Why?" [] (Some ([stale_turn] ++ six_turns))
  = build_messages stub_repr "Why?" [] (Some six_turns).
Proof.
  apply (build_messages_last_six stub_repr "Why?" [] [stale_turn] six_turns).
  reflexivity.
Defined.

Lemma build_messages_shape_witness :
  exists messages,
    build_messages stub_repr "Why?" dedup_chunks (Some six_turns) = Ok messages /\
    (length messages <= 8)%nat.
Proof.
  assert (exists messages,
            build_messages stub_repr "Why?" dedup_chunks (Some six_turns)
            = Ok messages) as [messages Hrun].
  { eexists. vm_compute. reflexivity. }
  exists messages. split; [exact Hrun|].
  destruct (build_messages_shape stub_repr "Why?" dedup_chunks (Some six_turns)
              messages Hrun) as (context & history_messages & _ & _ & _ & _ & Hlen).
  exact Hlen.
Defined.

(** *** The sources list has no duplicates *)

Lemma ordered_pairs_snoc {A : Type} (R : A -> A -> Prop) (l : list A) (x : A) :
  ForallOrdPairs R l -> Forall (fun y => R y x) l -> ForallOrdPairs R (l ++ [x]).
Proof.
  induction 1 as [|a l Ha Hl IH]; intros Hx; simpl.
  - apply FOP_cons; [apply Forall_nil; exact I | apply FOP_nil].
  - apply Forall_cons in Hx as [Hax Hx]. apply FOP_cons.
    + apply Forall_app. split; [exact Ha|].
      apply Forall_cons. split; [exact Hax | apply Forall_nil; exact I].
    + apply IH, Hx.
Qed.

Lemma key_not_in (key : pyval * pyval) (seen : list (pyval * pyval)) :
  key_in key seen = false -> forall k, In k seen -> key_eqb k key = false.
Proof.
  unfold key_in. intros Hnone k Hk.
  destruct (key_eqb k key) eqn:Heq; [|reflexivity].
  assert (Hex : existsb (fun k => key_eqb k key) seen = true).
  { apply existsb_exists. exists k. split; assumption. }
  rewrite Hex in Hnone. discriminate Hnone.
Qed.

(** The invariant of the loop that collects the sources. *)
Lemma extract_sources_from_invariant (chunks : list (gmap string pyval)) :
  forall cited seen,
    Forall (fun s => In (cited_key s) seen) cited ->
    ForallOrdPairs distinct_keys cited ->
    Forall (fun s => truthy (src_page_number s) = true) cited ->
    let out := extract_sources_from chunks cited seen in
    ForallOrdPairs distinct_keys out /\
    Forall (fun s => truthy (src_page_number s) = true) out /\
    (length out <= length cited + length chunks)%nat.
Proof.
  induction chunks as [|c rest IH]; intros cited seen Hseen Hdistinct Htruthy.
  - simpl. repeat split; [assumption | assumption | lia].
  - cbn [extract_sources_from].
    destruct (negb (key_in (source_key c) seen) && truthy (dict_get c "page_number"))
      eqn:Hkeep.
    + apply andb_prop in Hkeep as [Hnew Hpage]. apply negb_true_iff in Hnew.
      destruct (IH (cited ++ [source_of c]) (source_key c :: seen))
        as (Hd & Ht & Hl).
      * apply Forall_app. split.
        -- eapply Forall_impl; [exact Hseen|]. intros s Hs. right. exact Hs.
        -- apply Forall_cons. split; [left; reflexivity | apply Forall_nil; exact I].
      * apply ordered_pairs_snoc; [exact Hdistinct|].
        eapply Forall_impl; [exact Hseen|]. intros s Hs.
        apply (key_not_in (source_key c) seen Hnew _ Hs).
      * apply Forall_app. split; [exact Htruthy|].
        apply Forall_cons. split; [exact Hpage | apply Forall_nil; exact I].
      * repeat split; [assumption | assumption |].
        rewrite length_app in Hl. simpl in *. lia.
    + destruct (IH cited seen Hseen Hdistinct Htruthy) as (Hd & Ht & Hl).
      repeat split; [assumption | assumption | simpl; lia].
Qed.

(** X22: the sources list never cites a [(document_id, page_number)] pair
    twice: any two of its entries, taken in order, have different keys. Every
    entry has a truthy page number, and there are at most as many entries as
    chunks. *)
Theorem extract_sources_distinct (context_chunks : list (gmap string pyval)) :
  ForallOrdPairs distinct_keys (extract_sources context_chunks) /\
  Forall (fun s => truthy (src_page_number s) = true)
    (extract_sources context_chunks) /\
  (length (extract_sources context_chunks) <= length context_chunks)%nat.
Proof.
  apply (extract_sources_from_invariant context_chunks [] []).
  - apply Forall_nil. exact I.
  - apply FOP_nil.
  - apply Forall_nil. exact I.
Qed.

End PromptFacts.

(** ** The background task *)

Module ServerFacts.
Import Runtime VectorStore PDFParser PDFProcessor PDFProcessorOps Server Shapes Fixtures.
Import MoreFixtures.
Import RuntimeFacts.

Lemma srv_run_bind {A B : Type} (m : Srv A) (f : A -> Srv B) (s : app_state) :
  srv_run (m ≫= f) s
  = match srv_run m s with
    | (s', Done a) => srv_run (f a) s'
    | (s', Failed e) => (s', Failed e)
    end.
Proof. reflexivity. Qed.

(** The percentages of the stages the task goes through. *)
Lemma percent_of_stage (k : nat) :
  (k <= 6)%nat -> percent k = mret (Z.of_nat (k * 100 / 6)).
Proof.
  intros Hk. do 7 (destruct k as [|k]; [reflexivity|]). lia.
Qed.

Lemma stage_at_clamped (k : nat) :
  stage_at (min k (length stages - 1))
  = mret (default "Complete" (stages !! k)).
Proof.
  do 6 (destruct k as [|k]; [reflexivity|]). reflexivity.
Qed.

Lemma default_Some {A : Type} (d a : A) : default d (Some a) = a.
Proof. reflexivity. Qed.

Lemma srv_run_mret {A : Type} (a : A) (s : app_state) :
  srv_run (mret a) s = (s, Done a).
Proof. reflexivity. Qed.

Lemma srv_run_get_stage (task_id : string) (s : app_state) :
  srv_run (get_stage task_id) s = (s, Done (default 0%nat (trackers s !! task_id))).
Proof. reflexivity. Qed.

Lemma srv_run_set_stage (task_id : string) (k : nat) (s : app_state) :
  srv_run (set_stage task_id k) s
  = (AppState (app_world s) (processing_status s) (<[task_id := k]> (trackers s)),
     Done tt).
Proof. reflexivity. Qed.

Lemma srv_run_set_status (task_id : string) (entry : status_entry) (s : app_state) :
  srv_run (set_status task_id entry) s
  = (AppState (app_world s) (<[task_id := entry]> (processing_status s))
       (trackers s), Done tt).
Proof. reflexivity. Qed.

Lemma srv_run_timestamp (s : app_state) :
  srv_run timestamp s = (s, Done (clock (app_world s))).
Proof. destruct s; reflexivity. Qed.

(** [update_status] on a tracker at stage [k]. *)
Lemma update_status_run (task_id status message : string) (progress : Z)
    (k : nat) (s : app_state) :
  trackers s !! task_id = Some k ->
  srv_run (update_status task_id status message progress) s
  = (AppState (app_world s)
       (<[task_id :=
            StatusEntry status message progress (default "Complete" (stages !! k))
              None (clock (app_world s))]> (processing_status s))
       (trackers s),
     Done tt).
Proof.
  intros Hk. unfold update_status.
  rewrite srv_run_bind, srv_run_get_stage, Hk. cbv beta iota. rewrite default_Some.
  rewrite srv_run_bind, stage_at_clamped, srv_run_mret. cbv beta iota.
  rewrite srv_run_bind, srv_run_timestamp. cbv beta iota.
  apply srv_run_set_status.
Qed.

(** One call of [next_stage] with a message, on a tracker at stage [k]. *)
Lemma next_stage_run (task_id message : string) (k : nat) (s : app_state) :
  trackers s !! task_id = Some k ->
  (k < 6)%nat ->
  message <> "" ->
  srv_run (next_stage task_id (Some message)) s
  = (AppState (app_world s)
       (<[task_id :=
            StatusEntry "processing" message (Z.of_nat (S k * 100 / 6))
              (default "Complete" (stages !! S k)) None (clock (app_world s))]>
          (processing_status s))
       (<[task_id := S k]> (trackers s)),
     Done tt).
Proof.
  intros Hk Hlt Hmsg. apply String.eqb_neq in Hmsg. unfold next_stage.
  rewrite srv_run_bind, srv_run_get_stage, Hk. cbv beta iota. rewrite default_Some.
  rewrite srv_run_bind, srv_run_set_stage. cbv beta iota.
  rewrite srv_run_bind, srv_run_get_stage. cbn [trackers]. rewrite lookup_insert_eq.
  cbv beta iota. rewrite default_Some. replace (k + 1)%nat with (S k) by lia.
  rewrite srv_run_bind. rewrite (percent_of_stage (S k)) by lia.
  rewrite srv_run_mret. cbv beta iota.
  rewrite srv_run_bind, Hmsg, srv_run_mret. cbv beta iota.
  rewrite (update_status_run _ _ _ _ (S k)) by (cbn [trackers]; apply lookup_insert_eq).
  reflexivity.
Qed.

Section Background.
Variable split_text : string -> list string.
Variable fitz_open : string -> result fitz_document.
Variable name_check : string -> result unit.
Variable collection_add :
  collection -> list string -> list pyval -> list (gmap string pyval) ->
  result collection.
Variable same_file : string -> string -> bool.
Variable uploads_dir : string.

Lemma new_progress_run (task_id : string) (s : app_state) :
  srv_run (new_progress task_id) s
  = (AppState (app_world s)
       (<[task_id :=
            StatusEntry "started" "Initializing..." 0 "Uploading file" None
              (clock (app_world s))]> (processing_status s))
       (<[task_id := 0%nat]> (trackers s)),
     Done tt).
Proof.
  unfold new_progress. rewrite srv_run_bind, srv_run_set_stage. cbv beta iota.
  rewrite (update_status_run _ _ _ _ 0) by (cbn [trackers]; apply lookup_insert_eq).
  reflexivity.
Qed.

(** The four stages announced before the document is processed. *)
Lemma four_stages_run {A : Type} (rest : Srv A) (task_id : string) (s : app_state) :
  trackers s !! task_id = Some 0%nat ->
  srv_run (next_stage task_id (Some "File uploaded successfully");;
           next_stage task_id (Some "Extracting text from PDF...");;
           next_stage task_id (Some "Chunking text for processing...");;
           next_stage task_id (Some "Generating embeddings...");;
           rest) s
  = srv_run rest
      (AppState (app_world s)
         (<[task_id :=
              StatusEntry "processing" "Generating embeddings..." 66
                "Storing in database" None (clock (app_world s))]>
            (processing_status s))
         (<[task_id := 4%nat]> (trackers s))).
Proof.
  intros Hk.
  rewrite srv_run_bind, (next_stage_run _ _ 0); [|exact Hk | lia | discriminate].
  cbv beta iota.
  rewrite srv_run_bind, (next_stage_run _ _ 1);
    [|cbn [trackers]; apply lookup_insert_eq | lia | discriminate].
  cbv beta iota. cbn [app_world processing_status trackers].
  rewrite srv_run_bind, (next_stage_run _ _ 2);
    [|cbn [trackers]; apply lookup_insert_eq | lia | discriminate].
  cbv beta iota. cbn [app_world processing_status trackers].
  rewrite srv_run_bind, (next_stage_run _ _ 3);
    [|cbn [trackers]; apply lookup_insert_eq | lia | discriminate].
  cbv beta iota. cbn [app_world processing_status trackers].
  rewrite !insert_insert_eq. reflexivity.
Qed.

Lemma srv_run_in_world {A : Type} (m : Py A) (s : app_state) :
  srv_run (in_world m) s
  = (AppState (run m (app_world s)).1 (processing_status s) (trackers s),
     match (run m (app_world s)).2 with
     | Ok a => Done a
     | Raise e => Failed (Inner e)
     end).
Proof. unfold in_world. cbn. destruct (run m (app_world s)); reflexivity. Qed.

(** One run of [process_pdf_background], in terms of what [process_pdf] does
    on the world of the server. *)
Lemma process_pdf_background_run (task_id file_path document_id : string)
    (s : app_state) :
  let ran := run (process_pdf split_text fitz_open name_check collection_add
                    same_file uploads_dir file_path (Some document_id)
                    "documents") (app_world s) in
  srv_run (process_pdf_background split_text fitz_open name_check
               collection_add same_file uploads_dir task_id file_path
               document_id) s
  = (match ran.2 with
     | Ok result =>
         AppState ran.1
           (<[task_id :=
                StatusEntry "completed" "Processing complete" 100 "Complete"
                  (Some result) (clock ran.1)]> (processing_status s))
           (<[task_id := 5%nat]> (trackers s))
     | Raise e =>
         AppState
           (World (delete file_path (files ran.1)) (chroma ran.1) (stdout ran.1)
              (clock ran.1))
           (<[task_id :=
                StatusEntry "failed" ("Error processing PDF: " +:+ exn_str e) 66
                  "Storing in database" None (clock ran.1)]> (processing_status s))
           (<[task_id := 4%nat]> (trackers s))
     end, Done tt).
Proof.
  cbv zeta. unfold process_pdf_background.
  rewrite srv_run_bind, new_progress_run. cbv beta iota.
  rewrite srv_run_bind. unfold srv_attempt at 1. cbn [srv_run].
  rewrite four_stages_run by (cbn [trackers]; apply lookup_insert_eq).
  cbn [app_world processing_status trackers]. rewrite !insert_insert_eq.
  rewrite srv_run_bind, srv_run_in_world. cbn [app_world processing_status trackers].
  destruct (run (process_pdf split_text fitz_open name_check collection_add
                   same_file uploads_dir file_path (Some document_id)
                   "documents") (app_world s))
    as [w' [result|e]]; cbn [fst snd]; cbv beta iota.
  - rewrite srv_run_bind, (next_stage_run _ _ 4);
      [|cbn [trackers]; apply lookup_insert_eq | lia | discriminate].
    cbv beta iota. cbn [app_world processing_status trackers].
    unfold complete. rewrite srv_run_bind, srv_run_set_stage. cbv beta iota.
    rewrite srv_run_bind, srv_run_timestamp. cbv beta iota.
    rewrite srv_run_set_status. cbn [app_world processing_status trackers].
    rewrite !insert_insert_eq. rewrite srv_run_mret. reflexivity.
  - rewrite srv_run_bind. unfold error.
    rewrite srv_run_bind, srv_run_get_stage. cbn [trackers].
    rewrite lookup_insert_eq. cbv beta iota. rewrite default_Some.
    rewrite srv_run_bind. rewrite (percent_of_stage 4) by lia.
    rewrite srv_run_mret. cbv beta iota.
    rewrite srv_run_bind. change (stage_at 4) with (mret (M := Srv) "Storing in database").
    rewrite srv_run_mret. cbv beta iota.
    rewrite srv_run_bind, srv_run_timestamp. cbv beta iota.
    rewrite srv_run_set_status. cbv beta iota.
    cbn [app_world processing_status trackers]. rewrite !insert_insert_eq.
    rewrite srv_run_bind, srv_run_in_world. cbn [app_world processing_status trackers].
    unfold path_exists. rewrite run_bind, run_get_world. cbv beta iota.
    rewrite run_mret. cbn [fst snd]. cbv beta iota.
    destruct (files w' !! file_path) as [content|] eqn:Hfile.
    + rewrite srv_run_in_world. cbn [app_world processing_status trackers].
      unfold unlink. rewrite run_bind, run_get_world. cbv beta iota. rewrite Hfile.
      reflexivity.
    + rewrite srv_run_mret. rewrite delete_id by exact Hfile.
      destruct w'; reflexivity.
Qed.

(** X23: when [process_pdf] returns, one run of [process_pdf_background]
    raises nothing and records the task as [completed] at 100 percent, in
    stage [Complete], with the result; the world is the one [process_pdf]
    left, so the uploaded file is still there next to its archived copy. *)
Theorem background_success_is_recorded (task_id file_path document_id : string)
    (s : app_state) (w' : world) (result : processing_result) :
  run (process_pdf split_text fitz_open name_check collection_add same_file
         uploads_dir file_path (Some document_id) "documents") (app_world s)
  = (w', Ok result) ->
  exists s',
    srv_run (process_pdf_background split_text fitz_open name_check
               collection_add same_file uploads_dir task_id file_path
               document_id) s = (s', Done tt) /\
    app_world s' = w' /\
    processing_status s' !! task_id
    = Some (StatusEntry "completed" "Processing complete" 100 "Complete"
              (Some result) (clock w')) /\
    (forall other, other <> task_id ->
                   processing_status s' !! other = processing_status s !! other) /\
    is_Some (files w' !! file_path).
Proof.
  intros Hrun. eexists. split.
  { rewrite process_pdf_background_run. cbv zeta. rewrite Hrun. reflexivity. }
  cbn [app_world processing_status fst snd].
  split; [reflexivity|]. split; [apply lookup_insert_eq|]. split.
  - intros other Hother. apply lookup_insert_ne. congruence.
  - destruct (PipelineMoreFacts.process_pdf_returns_source split_text fitz_open
                name_check collection_add same_file uploads_dir file_path
                (Some document_id) "documents" (app_world s) w' result Hrun)
      as [content Hcontent].
    rewrite Hcontent. eauto.
Qed.


End Background.

Lemma background_success_is_recorded_witness :
  exists s',
    srv_run (process_pdf_background config_splitter plain_reader any_name
               mem_add one_path "uploads" "task-1" "uploads/temp_notes.pdf"
               "notes") idle_server
    = (s', Done tt) /\
    st_status <$> processing_status s' !! "task-1" = Some "completed".
Proof.
  assert (exists w' result,
            run (process_pdf config_splitter plain_reader any_name mem_add
                   one_path "uploads" "uploads/temp_notes.pdf" (Some "notes")
                   "documents")
              (app_world idle_server) = (w', Ok result)) as (w' & result & Hrun).
  { eexists _, _. vm_compute. reflexivity. }
  destruct (background_success_is_recorded config_splitter plain_reader any_name
              mem_add one_path "uploads" "task-1" "uploads/temp_notes.pdf"
              "notes" idle_server w' result Hrun) as (s' & Hbg & _ & Hstatus & _).
  exists s'. split; [exact Hbg|]. rewrite Hstatus. reflexivity.
Defined.


End ServerFacts.
